(** * learn_axolotl: the getting-started notebook, embedded and verified

    The repository is one Jupyter notebook ([notebooks/01_getting_started.ipynb]).
    Its code is glue around three libraries: the Python standard library
    ([pathlib], [open], [shutil]), PySpark (the session) and Axolotl (the
    GenBank loader, the table writer and reader, the BiG-SLICE application).

    The development follows the notebook cell by cell.

    - [Text] and [Paths]: Python strings, [pathlib.Path] parsing and printing;
      [Spelling]: the paths for which the tree below is right about the file
      a path names.
    - [FS]: the file system as a tree of directories, with the operations the
      notebook uses ([Path.exists], [Path.mkdir(parents, exist_ok)],
      [open(.., 'w')], [shutil.rmtree], [Path.glob]).
    - [Spark]: the one active context of a PySpark process.
    - [Py]: the state-and-exception monad the cells run in; every library
      call is logged with the file system before and after it.
    - [Notebook]: the two functions of the first cell and the staging cells,
      parametric in the Axolotl collaborators.
    - [Modelled]: the collaborators as the specification describes them,
      for the statements that depend on what the collaborators do.
    - [Sample]: small worlds on which the statements are tried; [Probe]:
      collaborators that accept or refuse by the arguments they are given.

    A cell is run like a statement of a script: an exception ends the run. *)

From Stdlib Require Import String Ascii List Arith Lia.
From stdpp Require Import base strings list gmap pretty.

Set Warnings "-register-all".
Local Open Scope list_scope.

(** ** Text: splitting and joining Python strings *)

Module Text.

(** [s.split(sep)] for a one-character separator: the pieces between the
    separators, empty pieces included; never the empty list. *)
Fixpoint split_on (sep : ascii) (s : string) : list string :=
  match s with
  | EmptyString => [EmptyString]
  | String c s' =>
      if Ascii.eqb c sep then EmptyString :: split_on sep s'
      else match split_on sep s' with
           | [] => [String c EmptyString]
           | w :: ws => String c w :: ws
           end
  end.

(** [c in s]. *)
Fixpoint mem (c : ascii) (s : string) : bool :=
  match s with
  | EmptyString => false
  | String d s' => Ascii.eqb c d || mem c s'
  end.

Definition newline : ascii := Ascii.ascii_of_nat 10.
Definition nl : string := String newline EmptyString.
Definition slash : ascii := "/"%char.

(** The lines of a text file as a line-oriented reader sees them: the text
    is cut after every newline, and a last piece without a newline counts
    only when it is not empty. *)
Definition lines (text : string) : list string :=
  let pieces := split_on newline text in
  match List.last pieces EmptyString with
  | EmptyString => List.removelast pieces
  | _ => pieces
  end.

(** [''.join(l)]. *)
Definition joined (l : list string) : string := String.concat EmptyString l.

End Text.

(** ** Paths: [pathlib.PurePosixPath] *)

Module Paths.

(** A path is the list of its [parts], as pathlib keeps them: an absolute
    path starts with the part ["/"], a relative one does not. *)
Definition path := list string.

Definition is_part (c : string) : bool :=
  negb (String.eqb c "") && negb (String.eqb c ".").

(** [Path(s)]: split at the slashes, drop empty parts and ["."] parts, keep
    the anchor of an absolute path. (POSIX's special case of exactly two
    leading slashes is not modelled.) *)
Definition Path (s : string) : path :=
  let parts := filter (fun c => is_part c = true) (Text.split_on Text.slash s) in
  match s with
  | String c _ => if Ascii.eqb c Text.slash then "/" :: parts else parts
  | EmptyString => parts
  end.

(** [str(p)]. *)
Definition str (p : path) : string :=
  match p with
  | [] => "."
  | a :: rest =>
      if String.eqb a "/" then "/" +:+ String.concat "/" rest
      else String.concat "/" p
  end.

(** [p.parent]: a path without parts, and the bare anchor, are their own parent. *)
Definition parent (p : path) : path :=
  match p with
  | [a] => if String.eqb a "/" then p else []
  | _ => List.removelast p
  end.

(** [p] is [q] or lies above it. *)
Fixpoint is_prefix (p q : path) : bool :=
  match p, q with
  | [], _ => true
  | c :: p', d :: q' => String.eqb c d && is_prefix p' q'
  | _ :: _, [] => false
  end.

(** Neither path is the other or lies above it. *)
Definition apart (p q : path) : bool :=
  negb (is_prefix p q) && negb (is_prefix q p).

(** A part as [Path] produces them: not empty, not ["."], without slash. *)
Definition clean (c : string) : Prop :=
  is_part c = true /\ Text.mem Text.slash c = false.

(** A file name as a file system has them, and without a newline. *)
Definition plain (c : string) : bool :=
  is_part c && negb (Text.mem Text.slash c) && negb (Text.mem Text.newline c).

(** The parts of a path that are names: all but the anchor. *)
Definition names (p : path) : list string :=
  match p with
  | a :: rest => if String.eqb a "/" then rest else p
  | [] => []
  end.

End Paths.

Export Paths.

(** ** How a path is spelled

    The tree of [FS] below looks every part of a path up as a name, the
    anchor ["/"] and [".."] included. It keeps what is reached through
    [..] apart from what is reached by names, and what a relative path
    names apart from what an absolute path names. A file system resolves
    [..] to the directory above and a relative path from the working
    directory, so that two spellings can name one file, and a removal
    through one spelling can take the working directory away. The tree is
    right about which file a path names for paths that are [settled],
    taken among paths of the [same_base]: the statements that depend on
    which file a path names carry these two conditions. *)

Module Spelling.

(** The number of [..] a path starts with. *)
Fixpoint ups (p : path) : nat :=
  match p with
  | c :: p' => if String.eqb c ".." then S (ups p') else 0
  | [] => 0
  end.

(** An absolute path. *)
Definition anchored (p : path) : bool :=
  match p with
  | a :: _ => String.eqb a "/"
  | [] => false
  end.

(** The names of a path after its leading [..] and its anchor. *)
Definition trail (p : path) : list string := names (drop (ups p) p).

(** A path without [..] after its leading ones. *)
Definition direct (p : path) : bool :=
  forallb (fun c => negb (String.eqb c "..")) (trail p).

(** A direct path with more names than leading [..]: it names something
    below the directory its leading [..] reach, which is neither the
    working directory nor a directory above it, nor the root directory. *)
Definition settled (p : path) : bool :=
  direct p && (ups p <? length (trail p)).

(** Two paths that start from one directory: both absolute, or both
    relative with as many leading [..]. *)
Definition same_base (p q : path) : bool :=
  Nat.eqb (ups p) (ups q) && Bool.eqb (anchored p) (anchored q).

(** The limits of the system on a name and on a path, in bytes
    ([NAME_MAX] and [PATH_MAX] less the terminator, on Linux). *)
Definition name_max : nat := 255.
Definition path_max : nat := 4095.

(** A name the system takes: no longer than [name_max] and without the
    null byte (which Python refuses with [ValueError] before the system is
    asked). *)
Definition sound_name (c : string) : bool :=
  (String.length c <=? name_max)
  && negb (Text.mem Ascii.zero c).

(** A path whose parts and whose length, with [room] more bytes, are
    within the limits. *)
Definition within_limits (room : nat) (p : path) : bool :=
  forallb sound_name p && (String.length (str p) + room <=? path_max).

End Spelling.

Export Spelling.

(** ** Rows of the annotation table *)

(** A record of the structured record set: opaque to the pipeline except
    for the reference back to the file it was parsed from. *)
Record Row := { source : string; body : string }.

Definition DataFrame := list Row.

(** ** Python exceptions *)

Inductive exn :=
  | NameError (name : string)
  | TypeError
  | ValueError
  | IndexError
  | NotImplementedError
  | FileExistsError
  | FileNotFoundError
  | NotADirectoryError
  | IsADirectoryError
  | OSError
  (* the specification's taxonomy, raised by the modelled collaborators *)
  | NotFoundError
  | IOError
  | WriteError
  | ExternalCollaboratorError (what : string).

Inductive result (A : Type) :=
  | Ok (a : A)
  | Err (e : exn).
Arguments Ok {A} a.
Arguments Err {A} e.

(** ** The file system

    A tree of directories, text files and table files. What the tree does
    not have: links, owners and permissions (every directory can be
    searched and written), limits on the length of a name or a path, names
    that cannot be encoded, a full disk. The operations below fail for
    the reasons the tree knows (something missing, a file where a
    directory is needed, a directory where a file is needed) and for no
    other. The node a relative path starts from is the working directory;
    the root directory is its entry ["/"] and the directory above it its
    entry [".."] (see [Spelling]). *)

Module FS.

Inductive node :=
  | File (text : string)
  | Parquet (rows : DataFrame)
  | Dir (entries : gmap string node).

Definition is_dir (n : node) : bool :=
  match n with Dir _ => true | _ => false end.

(** The node a path names, from the node the path starts at. Every part
    is looked up as a name; [..] is not resolved. *)
Fixpoint stat (p : path) (n : node) : option node :=
  match p with
  | [] => Some n
  | c :: p' => match n with Dir es => es !! c ≫= stat p' | _ => None end
  end.

(** [p.exists()] and [p.is_dir()]. *)
Definition path_exists (p : path) (fs : node) : bool :=
  match stat p fs with Some _ => true | None => false end.

Definition path_is_dir (p : path) (fs : node) : bool :=
  match stat p fs with Some (Dir _) => true | _ => false end.

(** [p.mkdir(parents=True, exist_ok=True)]: every missing directory on the
    way is created; an existing directory is left as it is; a part that
    exists and is not a directory raises (pathlib re-raises [os.mkdir]'s
    error there, since [exist_ok] only covers directories). Nothing has
    been created when it raises: what lies above an existing node exists. *)
Fixpoint mkdir_p (p : path) (n : node) : result node :=
  match p with
  | [] => match n with Dir _ => Ok n | _ => Err FileExistsError end
  | c :: p' =>
      match n with
      | Dir es =>
          match mkdir_p p' (default (Dir ∅) (es !! c)) with
          | Ok n' => Ok (Dir (<[c := n']> es))
          | Err e => Err e
          end
      | _ => Err NotADirectoryError
      end
  end.

(** [with open(p, 'w') as f: f.writelines(..)]: the file is created or
    truncated and holds the text written; the directory it lies in must
    exist, and the path must not name a directory. (A name beyond the limit
    of the system, or a text that cannot be encoded, are failures of [open]
    and [writelines] the tree does not have: they leave the directories
    [mkdir] made, and the second an empty or partial file.) *)
Fixpoint write_text (p : path) (text : string) (n : node) : result node :=
  match p with
  | [] => match n with Dir _ => Err IsADirectoryError | _ => Ok (File text) end
  | c :: p' =>
      match n with
      | Dir es =>
          match es !! c with
          | Some child =>
              match write_text p' text child with
              | Ok n' => Ok (Dir (<[c := n']> es))
              | Err e => Err e
              end
          | None =>
              match p' with
              | [] => Ok (Dir (<[c := File text]> es))
              | _ => Err FileNotFoundError
              end
          end
      | _ => Err NotADirectoryError
      end
  end.

(** The tree without the node at [p]. *)
Fixpoint unlink (p : path) (n : node) : node :=
  match p with
  | [] => n
  | c :: p' =>
      match n with
      | Dir es =>
          match p' with
          | [] => Dir (delete c es)
          | _ => match es !! c with
                 | Some child => Dir (<[c := unlink p' child]> es)
                 | None => n
                 end
          end
      | _ => n
      end
  end.

(** The two entries of the working directory that are not in it: the root
    directory and the directory above. *)
Definition beyond (c : string) : bool := String.eqb c "/" || String.eqb c "..".

(** [shutil.rmtree(p)]: the error raised, if any, and the tree left. A
    directory is removed with all it holds; something that is not a
    directory is left alone ([os.scandir] raises [NotADirectoryError]). On
    the path without parts (the working directory) the content is deleted
    and removing the directory itself then fails. The tree is right about
    a removal at a [settled] path only: at a path that ends in [..], or
    that names the working directory or the root directory, a file system
    removes other things than the tree does, and the final [os.rmdir] can
    raise where the tree's does not. *)
Definition rmtree (p : path) (fs : node) : option exn * node :=
  match stat p fs with
  | None => (Some FileNotFoundError, fs)
  | Some (Dir es) =>
      match p with
      | [] => (Some OSError, Dir (filter (fun entry => beyond entry.1 = true) es))
      | _ => (None, unlink p fs)
      end
  | Some _ => (Some NotADirectoryError, fs)
  end.

(** *** [Path.glob]

    [fnmatch]: [*] is any run of characters, [?] any one character, every
    other character itself (bracket classes are not modelled). A file name
    never holds a slash, so [*] cannot cross a directory. *)
Fixpoint fnmatch (pat name : string) : bool :=
  match pat with
  | EmptyString => match name with EmptyString => true | _ => false end
  | String c pat' =>
      if Ascii.eqb c "*" then
        (fix star (name : string) : bool :=
           fnmatch pat' name
           || match name with
              | EmptyString => false
              | String _ name' => star name'
              end) name
      else
        match name with
        | EmptyString => false
        | String d name' =>
            (Ascii.eqb c "?" || Ascii.eqb c d) && fnmatch pat' name'
        end
  end.

(** pathlib's [_is_wildcard_pattern], without the bracket. *)
Definition is_wild (seg : string) : bool :=
  Text.mem "*"%char seg || Text.mem "?"%char seg.

Definition last_seg (rest : list string) : bool :=
  match rest with [] => true | _ => false end.

(** pathlib's selectors (CPython 3.11, [pathlib._make_selector]): one per
    part of the pattern. A part with a wildcard scans the directory and
    keeps the entries whose name matches (only directories, unless it is
    the last part); a part without one looks the name up; after the last
    part the path reached is yielded. The recursive [**] part is not
    modelled. *)
Fixpoint select_from (segs : list string) (here : path) (n : node) : list path :=
  match segs with
  | [] => [here]
  | seg :: rest =>
      match n with
      | Dir es =>
          if is_wild seg then
            flat_map
              (fun entry : string * node =>
                 if fnmatch seg entry.1 && (last_seg rest || is_dir entry.2)
                 then select_from rest (here ++ [entry.1]) entry.2
                 else [])
              (map_to_list es)
          else
            match es !! seg with
            | Some child =>
                if last_seg rest || is_dir child
                then select_from rest (here ++ [seg]) child
                else []
            | None => []
            end
      | _ => []
      end
  end.

(** [list(root.glob(pattern))]. The empty pattern is refused with
    [ValueError], an absolute one with [NotImplementedError], and one
    without parts (["."]) makes [_make_selector] raise [IndexError].
    [_Selector.select_from] yields nothing when [root] is not a directory,
    whether it exists or not. ([Path.is_dir] re-raises the errors of
    [os.stat] other than a missing or non-directory part: a name or a path
    beyond the limits of the system, a directory that cannot be searched.
    The tree has neither, see [within_limits].) *)
Definition glob (root : path) (pattern : string) (fs : node) : result (list path) :=
  match pattern with
  | EmptyString => Err ValueError
  | String c _ =>
      if Ascii.eqb c Text.slash then Err NotImplementedError
      else
        match Path pattern with
        | [] => Err IndexError
        | segs =>
            match stat root fs with
            | Some (Dir es) => Ok (select_from segs root (Dir es))
            | _ => Ok []
            end
        end
  end.

(** The names a pattern matches, part by part. *)
Definition matched (segs : list string) (rel : path) : Prop :=
  Forall2 (fun seg c => fnmatch seg c = true) segs rel.

(** The entries a run of [glob] matches: below [root], which is a
    directory, one part per part of the pattern, each matching its part. *)
Definition matches (root : path) (pattern : string) (fs : node) (p : path) : Prop :=
  path_is_dir root fs = true /\
  exists rel, p = root ++ rel /\ matched (Path pattern) rel /\ path_exists p fs = true.

End FS.

Export FS.

(** ** The Spark side of the process *)

Module Spark.

(** A [SparkContext]; a [SparkSession] is identified with the context it
    runs on ([spark.sparkContext]). [cid] numbers the contexts the process
    has started. *)
Record Context := { cid : nat; conf : list (string * string) }.

(** At most one context is active in a process (PySpark's
    [SparkContext._active_spark_context]). *)
Record state := { active : option Context; started : nat }.

(** [SparkContext.getOrCreate(conf)] and, for what it returns,
    [SparkSession.builder.<options>.getOrCreate()]: the active context when
    there is one (the options do not touch it), a new one otherwise. Only
    the bookkeeping of the contexts is modelled: that Spark refuses some
    options (the call then raises), and what a context writes (its event
    log, in the directory it is given) and removes (its scratch
    directories, when stopped), are not. *)
Definition getOrCreate (options : list (string * string)) (s : state)
  : Context * state :=
  match active s with
  | Some c => (c, s)
  | None =>
      let c := {| cid := started s; conf := options |} in
      (c, {| active := Some c; started := S (started s) |})
  end.

(** [sc.stop()]. *)
Definition stop (c : Context) (s : state) : state :=
  match active s with
  | Some c' =>
      if Nat.eqb (cid c) (cid c')
      then {| active := None; started := started s |} else s
  | None => s
  end.

End Spark.

(** ** Cells as state-and-exception computations *)

Module Py.

(** The library calls the notebook makes, with their arguments. *)
Inductive call :=
  | SparkContext_getOrCreate
  | SparkContext_stop (cid : nat)
  | Builder_getOrCreate (options : list (string * string))
  | Name (x : string)
  | Getenv (x : string)
  | Glob (root : path) (pattern : string)
  | Mkdir (p : path)
  | OpenW (p : path)
  | LoadSmallFiles2 (file_pattern df_type : string) (minPartitions : nat)
      (skip_malformed_record : bool)
  | DfWrite (df : DataFrame) (file_path : string) (overwrite : bool)
      (num_partitions : nat)
  | Exists (p : path)
  | Rmtree (p : string)
  | RawFeatDFRead (file_path : string)
  | BigsliceAppCreate (app_folder_path : string) (source_data : DataFrame)
      (source_type : string).

(** A call as it happened: the file system when it began and when it
    returned, and the exception it raised, if any. *)
Record entry := {
  what : call;
  before : node;
  after : node;
  raised : option exn;
}.

Record World := {
  fs : node;
  globals : gmap string string;   (* the kernel's string-valued names *)
  environ : gmap string string;   (* [os.environ] *)
  spark : Spark.state;
  trace : list entry;             (* oldest first *)
}.

Definition M (A : Type) : Type := World -> result A * World.

Definition ret {A} (a : A) : M A := fun w => (Ok a, w).

(** An exception ends the computation where it is raised; the world stays
    as the raising call left it. *)
Definition bind {A B} (m : M A) (k : A -> M B) : M B :=
  fun w =>
    match m w with
    | (Ok a, w') => k a w'
    | (Err e, w') => (Err e, w')
    end.

Definition logged (c : call) (b a : node) (r : option exn) (w : World) : World :=
  {| fs := a; globals := globals w; environ := environ w; spark := spark w;
     trace := trace w ++ [{| what := c; before := b; after := a; raised := r |}] |}.

(** A call that only reads the file system. *)
Definition reads {A} (c : call) (f : node -> result A) : M A :=
  fun w =>
    match f (fs w) with
    | Ok a => (Ok a, logged c (fs w) (fs w) None w)
    | Err e => (Err e, logged c (fs w) (fs w) (Some e) w)
    end.

(** A call that may change the file system, also when it raises. *)
Definition writes (c : call) (f : node -> option exn * node) : M unit :=
  fun w =>
    match f (fs w) with
    | (None, n) => (Ok tt, logged c (fs w) n None w)
    | (Some e, n) => (Err e, logged c (fs w) n (Some e) w)
    end.

(** A call that changes the file system or raises and leaves it alone. *)
Definition updates (c : call) (f : node -> result node) : M unit :=
  writes c (fun n => match f n with Ok n' => (None, n') | Err e => (Some e, n) end).

(** Reading a global name of the kernel. *)
Definition name (x : string) : M string :=
  fun w => reads (Name x)
             (fun _ => match globals w !! x with
                       | Some v => Ok v
                       | None => Err (NameError x)
                       end) w.

(** [x = v] at the top level of a cell. *)
Definition assign (x v : string) : M unit :=
  fun w =>
    (Ok tt, {| fs := fs w; globals := <[x := v]> (globals w);
               environ := environ w; spark := spark w; trace := trace w |}).

(** [Path(os.getenv(x))]: [os.getenv] returns [None] for an unset variable,
    and [Path(None)] raises [TypeError]. *)
Definition getenv_path (x : string) : M path :=
  fun w => reads (Getenv x)
             (fun _ => match environ w !! x with
                       | Some v => Ok (Path v)
                       | None => Err TypeError
                       end) w.

Definition on_spark {A} (c : Spark.state -> call) (f : Spark.state -> A * Spark.state) : M A :=
  fun w =>
    let '(a, s) := f (spark w) in
    (Ok a, {| fs := fs w; globals := globals w; environ := environ w; spark := s;
              trace := trace w ++ [{| what := c (spark w); before := fs w;
                                      after := fs w; raised := None |}] |}).

(** The steps of a staging run, in the order of the specification, with
    the session before them and the set-up of cell 04d4a557 (reading
    [CONDA_PREFIX]) between the manifest and the load. *)
Inductive step :=
  | Session | Discover | WriteManifest | Setup | LoadRecords | WriteTable
  | ResetWorkspace | ConstructApp.

Definition step_of (c : call) : step :=
  match c with
  | SparkContext_getOrCreate | SparkContext_stop _ | Builder_getOrCreate _ => Session
  | Glob _ _ => Discover
  | Name _ | Mkdir _ | OpenW _ => WriteManifest
  | Getenv _ => Setup
  | LoadSmallFiles2 _ _ _ _ => LoadRecords
  | DfWrite _ _ _ _ => WriteTable
  | Exists _ | Rmtree _ => ResetWorkspace
  | RawFeatDFRead _ | BigsliceAppCreate _ _ _ => ConstructApp
  end.

(** The steps of a complete staging run, call by call: the glob; the
    lookup of [genbank_table], the [mkdir] and the write; the set-up; the
    load; the table write; the test for the workspace and, when it is
    there, its removal; the read of the table and the construction. *)
Definition plan (workspace_present : bool) : list step :=
  [Discover; WriteManifest; WriteManifest; WriteManifest; Setup; LoadRecords;
   WriteTable; ResetWorkspace]
  ++ (if workspace_present then [ResetWorkspace] else [])
  ++ [ConstructApp; ConstructApp].

(** Each call starts from the file system the call before it left. *)
Fixpoint linked (n : node) (t : list entry) : Prop :=
  match t with
  | [] => True
  | e :: t' => before e = n /\ linked (after e) t'
  end.

(** The file system the last call of [t] left ([n] when there is none). *)
Definition left_by (n : node) (t : list entry) : node :=
  List.last (map after t) n.

(** Only the last call of [t] can have raised, and it did exactly when the
    run ended in an exception, which is then the one it raised. *)
Definition ended_by (t : list entry) (r : result unit) : Prop :=
  Forall (fun e => raised e = None) (List.removelast t) /\
  match r with
  | Ok _ => Forall (fun e => raised e = None) t
  | Err x => exists e, last t = Some e /\ raised e = Some x
  end.

(** The calls made between two worlds of one run. *)
Definition since (w w' : World) : list entry := drop (length (trace w)) (trace w').

End Py.

Export Py.

Notation "x <- m ;; k" := (Py.bind m (fun x => k))
  (at level 100, m at next level, right associativity).
Notation "m ;;; k" := (Py.bind m (fun _ => k))
  (at level 100, right associativity).

(** ** The notebook *)

Module Notebook.

(** What the notebook imports from Axolotl. The loader and the reader only
    read the file system; the writer and the application builder may change
    it, also when they raise. *)
Record Axolotl := {
  (* [gbkIO.loadSmallFiles2(file_pattern, df_type=, minPartitions=, skip_malformed_record=)] *)
  loadSmallFiles2 : string -> string -> nat -> bool -> node -> result DataFrame;
  (* [df.write(file_path, overwrite=, num_partitions=)] *)
  df_write : DataFrame -> string -> bool -> nat -> node -> option exn * node;
  (* [RawFeatDF.read(file_path)] *)
  RawFeatDF_read : string -> node -> result DataFrame;
  (* [BigsliceApp.create(app_folder_path, source_data, source_type=)] *)
  BigsliceApp_create : string -> DataFrame -> string -> node -> option exn * node;
}.

(** *** Cell 7526d0cb: the two functions *)

Definition py_bool (b : bool) : string := if b then "true" else "false".

(** The options the builder chain of [start_new_spark_session] sets, in
    the order of the chain. *)
Definition session_options (master_ip app_name : string) (log_dir : path)
    (cores : nat) (memory : string) (partitions : nat) : list (string * string) :=
  [ ("spark.app.name", app_name);
    ("spark.master", master_ip);
    ("spark.executor.cores", pretty cores);
    ("spark.executor.memory", memory);
    ("spark.shuffle.useOldFetchProtocol", py_bool true);
    ("spark.sql.shuffle.partitions", pretty partitions);
    ("spark.sql.parquet.enableVectorizedReader", py_bool false);
    ("spark.eventLog.enabled", py_bool true);
    ("spark.eventLog.dir", str log_dir) ].

Definition start_new_spark_session (master_ip app_name log_dir : string)
    (cores : nat) (memory : string) (partitions : nat)
  : M (Spark.Context * Spark.Context) :=
  (* Stop the existing SparkContext if there is one *)
  old <- on_spark (fun _ => SparkContext_getOrCreate) (Spark.getOrCreate []) ;;
  on_spark (fun _ => SparkContext_stop (Spark.cid old))
           (fun s => (tt, Spark.stop old s)) ;;;
  (* Create the log directory if it doesn't exist *)
  let log_dir := Path log_dir in
  updates (Mkdir log_dir) (mkdir_p log_dir) ;;;
  (* Create a new SparkSession with the specified configuration *)
  let options := session_options master_ip app_name log_dir cores memory partitions in
  spark <- on_spark (fun _ => Builder_getOrCreate options) (Spark.getOrCreate options) ;;
  let sc := spark in
  ret (spark, sc).

(** The call with the defaults of the signature:
    [log_dir="../logs", cores=2, memory="2g", partitions=5]. *)
Definition start_new_spark_session_defaults (master_ip app_name : string) :=
  start_new_spark_session master_ip app_name "../logs" 2 "2g" 5.

Definition gbk_to_bigslice_app (ax : Axolotl)
    (genbank_table_path bigslice_app_dir_path annotations_path : string) : M unit :=
  let genbank_table := genbank_table_path in
  (* Load the annotation data from the datasets into a DataFrame *)
  df <- reads (LoadSmallFiles2 genbank_table "annotation" 5 true)
              (loadSmallFiles2 ax genbank_table "annotation" 5 true) ;;
  writes (DfWrite df annotations_path true 5)
         (df_write ax df annotations_path true 5) ;;;
  let bigslice_app_dir := Path bigslice_app_dir_path in
  (* Delete the existing directory if it exists *)
  present <- reads (Exists bigslice_app_dir)
                   (fun n => Ok (path_exists bigslice_app_dir n)) ;;
  (if present : bool
   then writes (Rmtree (str bigslice_app_dir))
               (rmtree (Path (str bigslice_app_dir)))
   else ret tt) ;;;
  (* Now you can create the BigsliceApp without getting an error *)
  features_df <- reads (RawFeatDFRead annotations_path)
                       (RawFeatDF_read ax annotations_path) ;;
  writes (BigsliceAppCreate (str bigslice_app_dir) features_df "antismash")
         (BigsliceApp_create ax (str bigslice_app_dir) features_df "antismash").

(** *** The literals of the cells, under the names the cells give them *)

Module Literals.

Definition dataset_path : string := "/home/matinnu/datadrive/vol_atlas_server/datasets/".
Definition pattern : string := "*/antismash/*region*.gbk".
Definition genbank_table : string := "../data/datasets.txt".
Definition bigslice_app_dir : string := "../data/interim/bigslice_app".
Definition annotations_dir : string := "../data/interim/annotations".

End Literals.

(** *** Cell a8f9e073 *)

Definition cell_a8f9e073 : M (Spark.Context * Spark.Context) :=
  start_new_spark_session_defaults "local[*]" "bigslice".

(** *** Cell fa8c0646: the list of datasets

    The body of the cell, with its two literals as parameters. The name
    [genbank_table] is a global of the kernel: the cell does not bind it. *)
Definition manifest_text (datasets : list path) : string :=
  Text.joined (map (fun dataset => str dataset +:+ Text.nl) datasets).

Definition write_dataset_list (dataset_path pattern : string) : M unit :=
  assign "dataset_path" dataset_path ;;;
  (* all .gbk files in the antismash subdirectories *)
  datasets <- reads (Glob (Path dataset_path) pattern)
                    (glob (Path dataset_path) pattern) ;;
  gt <- name "genbank_table" ;;
  let outfile := Path gt in
  (* Create the parent directory of the output file if it doesn't exist *)
  updates (Mkdir (parent outfile)) (mkdir_p (parent outfile)) ;;;
  (* Write the paths of the datasets to the file, one per line *)
  updates (OpenW outfile) (write_text outfile (manifest_text datasets)).

Definition cell_fa8c0646 : M unit :=
  write_dataset_list Literals.dataset_path Literals.pattern.

(** *** Cell 04d4a557: loading the data into the BiG-SLICE app

    The body of the cell, with its three literals as parameters. *)
Definition load_into_app (ax : Axolotl)
    (genbank_table bigslice_app_dir annotations_dir : string) : M unit :=
  assign "genbank_table" genbank_table ;;;
  assign "bigslice_app_dir" bigslice_app_dir ;;;
  assign "annotations_dir" annotations_dir ;;;
  (* bigslice_db_path = Path(os.getenv("CONDA_PREFIX")) / "bin/bigslice-models" *)
  prefix <- getenv_path "CONDA_PREFIX" ;;
  let bigslice_db_path := prefix ++ Path "bin/bigslice-models" in
  gbk_to_bigslice_app ax genbank_table bigslice_app_dir annotations_dir.

Definition cell_04d4a557 (ax : Axolotl) : M unit :=
  load_into_app ax Literals.genbank_table Literals.bigslice_app_dir
                   Literals.annotations_dir.

(** *** The staging run: the two cells, in the order of the notebook *)

Definition staging (ax : Axolotl) (dataset_path pattern : string)
    (genbank_table bigslice_app_dir annotations_dir : string) : M unit :=
  write_dataset_list dataset_path pattern ;;;
  load_into_app ax genbank_table bigslice_app_dir annotations_dir.

Definition notebook_staging (ax : Axolotl) : M unit :=
  cell_fa8c0646 ;;; cell_04d4a557 ax.

(** *** The calls the dataset-list cell can make *)

(** The shape of every call the dataset-list cell makes, in terms of its
    two literals and of what the kernel knows as [genbank_table]. *)
Definition manifest_call (dataset_path pattern : string) (gt : option string)
    (c : call) : Prop :=
  match c with
  | Glob root pat => root = Path dataset_path /\ pat = pattern
  | Name x => x = "genbank_table"
  | Mkdir p => exists g, gt = Some g /\ p = parent (Path g)
  | OpenW p => exists g, gt = Some g /\ p = Path g
  | _ => False
  end.

End Notebook.

Export Notebook.

(** ** The collaborators, modelled from the specification *)

Module Modelled.

Section Collaborators.

(** The two things the specification leaves opaque: what the parser makes
    of the text of an input file (its records, or [None] when it fails),
    and what the application keeps in the directory that is its
    workspace. *)
Variable parse_records : string -> option (list string).
Variable app_layout : DataFrame -> string -> gmap string node.

(** *** Record Loader *)

(** Modelled from the spec: the rows of the records of a file, each
    carrying "a reference back to that file's identity" (none for a text
    the parser fails on). *)
Definition rows_of_file (src text : string) : DataFrame :=
  map (fun b => {| source := src; body := b |}) (default [] (parse_records text)).

(** Modelled from the spec: one line of the manifest names one file, which
    the loader "parses ... into structured records"; a "missing
    manifest-referenced file" is a [NotFoundError], and a failure of the
    parser is "surfaced" as an [ExternalCollaboratorError]. *)
Definition load_file (fs : node) (line : string) : result DataFrame :=
  match stat (Path line) fs with
  | Some (File text) =>
      match parse_records text with
      | Some _ => Ok (rows_of_file line text)
      | None => Err (ExternalCollaboratorError "record loader")
      end
  | _ => Err NotFoundError
  end.

(** Modelled from the spec: the files of the manifest, in its order; the
    first failure ends the load. *)
Fixpoint load_files (fs : node) (ls : list string) : result DataFrame :=
  match ls with
  | [] => Ok []
  | l :: rest =>
      match load_file fs l with
      | Ok df =>
          match load_files fs rest with
          | Ok df' => Ok (df ++ df')
          | Err e => Err e
          end
      | Err e => Err e
      end
  end.

(** Modelled from the spec: the record loader, Axolotl's
    [gbkIO.loadSmallFiles2], which the repository imports. It "parses each
    file into structured records" ([RecordLoader.load(paths) -> RecordSet]),
    the files being those the manifest lists, one path per line; "each
    record maps to exactly one source file and carries a reference back to
    that file's identity"; a "missing manifest-referenced file" is a
    [NotFoundError], any other failure an [ExternalCollaboratorError]. The
    specification has no word on the table type, the partition hint and
    [skip_malformed_record]: the model does not look at them. *)
Definition load (file_pattern df_type : string) (minPartitions : nat)
    (skip_malformed_record : bool) (fs : node) : result DataFrame :=
  match stat (Path file_pattern) fs with
  | Some (File manifest) => load_files fs (Text.lines manifest)
  | _ => Err NotFoundError
  end.

(** *** Table Writer *)

(** Modelled from the spec: the name of the [i]th partition file (the
    layout is "owned by the external table-writing collaborator"). *)
Definition part_name (i : nat) : string := "part-" +:+ pretty i.

(** Modelled from the spec: [n] runs of [k] rows each, the last ones
    possibly short or empty. *)
Fixpoint chunks (n k : nat) (df : DataFrame) : list DataFrame :=
  match n with
  | 0 => []
  | S n' => take k df :: chunks n' k (drop k df)
  end.

(** Modelled from the spec: the rows in [num_partitions] partitions (one
    when the count is zero). *)
Definition partitions (num_partitions : nat) (df : DataFrame) : list DataFrame :=
  let n := Nat.max 1 num_partitions in
  chunks n (Nat.div (length df + n - 1) n) df.

(** Modelled from the spec: the partition files of an artifact, by name. *)
Definition part_files (num_partitions : nat) (df : DataFrame) : list (string * node) :=
  imap (fun i rows => (part_name i, Parquet rows)) (partitions num_partitions df).

(** Modelled from the spec: the directory an artifact is, its partition
    files and nothing else. *)
Definition artifact (num_partitions : nat) (df : DataFrame) : gmap string node :=
  list_to_map (part_files num_partitions df).

(** Modelled from the spec: how a collaborator places a node. The node at
    [p] becomes [x]; the directory above [p] must exist. *)
Fixpoint put (p : path) (x : node) (n : node) : node :=
  match p with
  | [] => x
  | c :: p' =>
      match n with
      | Dir es =>
          match p' with
          | [] => Dir (<[c := x]> es)
          | _ => match es !! c with
                 | Some child => Dir (<[c := put p' x child]> es)
                 | None => n
                 end
          end
      | _ => n
      end
  end.

(** Modelled from the spec: "the old artifact must be fully removed";
    everything at [p] and below is removed. *)
Definition remove_all (p : path) (fs : node) : node :=
  match p with
  | [] => Dir ∅
  | _ => unlink p fs
  end.

(** Modelled from the spec: the table writer, Axolotl's [write] on a
    dataframe ([TableStore.write(records, path, overwrite, partitions)]),
    which the repository imports. It "persist[s] the records as a
    partitioned columnar artifact", a directory of partition files; "if
    overwrite is true and an artifact already exists at the destination,
    the old artifact must be fully removed before new data becomes visible
    there"; it "fails with [WriteError] if destination is unwritable or if
    overwrite is false and the destination already holds an artifact". *)
Definition table_write (df : DataFrame) (file_path : string) (overwrite : bool)
    (num_partitions : nat) (fs : node) : option exn * node :=
  let p := Path file_path in
  if path_exists p fs && negb overwrite then (Some WriteError, fs)
  else
    let cleared := if path_exists p fs then remove_all p fs else fs in
    match mkdir_p p cleared with
    | Err _ => (Some WriteError, cleared)
    | Ok made =>
        (None,
         foldr (fun part n => put (p ++ [part.1]) part.2 n) made
               (part_files num_partitions df))
    end.

(** Modelled from the spec: the rows of an entry of an artifact. *)
Definition rows_of (entry : string * node) : DataFrame :=
  match entry.2 with Parquet rows => rows | _ => [] end.

(** Modelled from the spec: reading a table artifact back, Axolotl's
    [RawFeatDF.read], which the repository imports. The artifact is "read
    back by the Application Builder as an external input"; its rows are
    those of its partition files, and "no ordering is guaranteed across
    partitions". *)
Definition table_read (file_path : string) (fs : node) : result DataFrame :=
  match stat (Path file_path) fs with
  | Some (Dir es) => Ok (flat_map rows_of (map_to_list es))
  | _ => Err NotFoundError
  end.

(** *** Application Builder *)

(** Modelled from the spec: the application builder, Axolotl's
    [BigsliceApp.create] ([AnalysisApp.create(path, table, sourceType)]),
    which the repository imports. The workspace is "a directory owned by
    the external application" that must "not exist" when the application
    is created; the source-type tag is "passed through". *)
Definition app_create (app_folder_path : string) (source_data : DataFrame)
    (source_type : string) (fs : node) : option exn * node :=
  let p := Path app_folder_path in
  if path_exists p fs
  then (Some (ExternalCollaboratorError "folder exists"), fs)
  else
    match mkdir_p (parent p) fs with
    | Err _ => (Some (ExternalCollaboratorError "cannot create folder"), fs)
    | Ok made => (None, put p (Dir (app_layout source_data source_type)) made)
    end.

(** *** A staging run as a function of the input directory *)



(** Modelled from the spec: the four collaborators together. *)
Definition axolotl : Axolotl :=
  {| loadSmallFiles2 := load;
     df_write := table_write;
     RawFeatDF_read := table_read;
     BigsliceApp_create := app_create |}.

End Collaborators.

End Modelled.

(** ** Sample worlds *)

Module Sample.

(** A parser for the samples: one record per line. *)
Definition parse (text : string) : option (list string) := Some (Text.lines text).

Definition layout (df : DataFrame) (source_type : string) : gmap string node :=
  {[ "source_type" := File source_type; "features" := Parquet df ]}.

Definition ax : Axolotl := Modelled.axolotl parse layout.

(** A file system whose dataset directory, where the notebook looks for
    it, holds [genomes]. *)
Definition datasets_at (genomes : gmap string node) : node :=
  Dir {[ "/" := Dir {[ "home" := Dir {[ "matinnu" := Dir {[ "datadrive" :=
           Dir {[ "vol_atlas_server" := Dir {[ "datasets" := Dir genomes ]} ]} ]} ]} ]} ]}.

(** Two genomes with three region files, next to a file that is not a
    region file. *)
Definition genomes : gmap string node :=
  {[ "g1" := Dir {[ "antismash" :=
        Dir {[ "c1.region001.gbk" := File ("r1" +:+ Text.nl +:+ "r2" +:+ Text.nl);
               "c1.region002.gbk" := File ("r3" +:+ Text.nl);
               "g1.gbk" := File ("whole" +:+ Text.nl) ]} ]};
     "g2" := Dir {[ "antismash" :=
        Dir {[ "c7.region001.gbk" := File ("r4" +:+ Text.nl) ]} ]} ]}.

Definition tree : node := datasets_at genomes.

(** A dataset directory without any region file. *)
Definition bare_tree : node :=
  datasets_at {[ "g1" := Dir {[ "antismash" := Dir {[ "g1.gbk" := File "whole" ]} ]} ]}.

(** A dataset directory with one region file, whose name has a newline in it. *)
Definition odd_name : string := "c1.region001" +:+ Text.nl +:+ ".gbk".

Definition odd_tree : node :=
  datasets_at {[ "g1" := Dir {[ "antismash" := Dir {[ odd_name := File "r" ]} ]} ]}.

(** The sample tree with a file where the notebook puts the workspace. *)
Definition blocked_tree : node :=
  match tree with
  | Dir es =>
      Dir (<[".." := Dir {[ "data" := Dir {[ "interim" :=
                 Dir {[ "bigslice_app" := File "not a directory" ]} ]} ]}]> es)
  | n => n
  end.

(** A kernel in which cell 04d4a557 has run before ([bound]), or a fresh one. *)
Definition kernel (tree : node) (bound : bool) : World :=
  {| fs := tree;
     globals := if bound then {[ "genbank_table" := Literals.genbank_table ]} else ∅;
     environ := {[ "CONDA_PREFIX" := "/opt/conda" ]};
     spark := {| Spark.active := None; Spark.started := 0 |};
     trace := [] |}.

(** The staging of the notebook with another workspace path. *)
Definition staging_with (bigslice_app_dir : string) : M unit :=
  staging ax Literals.dataset_path Literals.pattern Literals.genbank_table
          bigslice_app_dir Literals.annotations_dir.

(** Two record sets. *)
Definition rows1 : DataFrame :=
  [ {| source := "g1/antismash/c1.region001.gbk"; body := "r1" |};
    {| source := "g1/antismash/c1.region001.gbk"; body := "r2" |};
    {| source := "g1/antismash/c1.region002.gbk"; body := "r3" |} ].

Definition rows2 : DataFrame :=
  [ {| source := "g2/antismash/c7.region001.gbk"; body := "r4" |} ].

(** The staging with absolute paths for what it writes, below [/work]. *)
Definition rooted_genbank_table : string := "/work/data/datasets.txt".

Definition rooted_kernel (tree : node) : World :=
  {| fs := tree;
     globals := {[ "genbank_table" := rooted_genbank_table ]};
     environ := {[ "CONDA_PREFIX" := "/opt/conda" ]};
     spark := {| Spark.active := None; Spark.started := 0 |};
     trace := [] |}.


End Sample.

(** ** Collaborators that say what they were asked *)

Module Probe.

(** A writer that takes a table only when [accept_write] likes the
    overwrite flag and the partition count it is given, and a builder that
    builds only for the source types [accept_type] likes. They touch no
    file; the loader and the reader return no row. *)
Definition axolotl (accept_write : bool -> nat -> bool) (accept_type : string -> bool)
  : Axolotl :=
  {| loadSmallFiles2 := fun _ _ _ _ _ => Ok [];
     df_write := fun _ _ overwrite num_partitions n =>
       if accept_write overwrite num_partitions then (None, n)
       else (Some WriteError, n);
     RawFeatDF_read := fun _ _ => Ok [];
     BigsliceApp_create := fun _ _ source_type n =>
       if accept_type source_type then (None, n)
       else (Some (ExternalCollaboratorError "source type"), n) |}.

End Probe.

(** * Properties *)

(** ** Text and paths *)

Module TextFacts.
Import Text.

Lemma app_nil_l (s : string) : "" +:+ s = s.
Proof. reflexivity. Qed.

Lemma app_cons c (a b : string) : String c a +:+ b = String c (a +:+ b).
Proof. reflexivity. Qed.

Lemma app_nil_r (s : string) : s +:+ "" = s.
Proof. induction s as [|c s IH]; [reflexivity|]. rewrite app_cons, IH. reflexivity. Qed.

Lemma app_assoc_s (a b c : string) : (a +:+ b) +:+ c = a +:+ (b +:+ c).
Proof.
  induction a as [|x a IH]; [reflexivity|]. rewrite !app_cons, IH. reflexivity.
Qed.

Lemma split_on_nonempty sep s : split_on sep s <> [].
Proof.
  destruct s as [|c s]; simpl; [discriminate|].
  destruct (Ascii.eqb c sep); [discriminate|].
  destruct (split_on sep s); discriminate.
Qed.

(** No piece of a split holds the separator. *)
Lemma split_on_free sep s : Forall (fun w => mem sep w = false) (split_on sep s).
Proof.
  induction s as [|c s IH]; simpl.
  - repeat constructor.
  - destruct (Ascii.eqb c sep) eqn:E.
    + constructor; [reflexivity|exact IH].
    + destruct (split_on sep s) as [|w ws]; inversion IH; subst.
      * repeat constructor. simpl. rewrite Ascii.eqb_sym, E. reflexivity.
      * constructor; [|assumption]. simpl. rewrite Ascii.eqb_sym, E. assumption.
Qed.

(** Splitting a piece without separator, followed by a separator. *)
Lemma split_on_cons sep w rest :
  mem sep w = false ->
  split_on sep (w +:+ String sep rest) = w :: split_on sep rest.
Proof.
  induction w as [|c w IH]; simpl; intros H.
  - rewrite Ascii.eqb_refl. reflexivity.
  - apply orb_false_iff in H as [Hc Hw].
    rewrite Ascii.eqb_sym, Hc. rewrite (IH Hw). reflexivity.
Qed.

Lemma split_on_single sep w : mem sep w = false -> split_on sep w = [w].
Proof.
  induction w as [|c w IH]; simpl; intros H; [reflexivity|].
  apply orb_false_iff in H as [Hc Hw].
  rewrite Ascii.eqb_sym, Hc, (IH Hw). reflexivity.
Qed.

(** [sep.join(l).split(sep) == l] when no element of [l] holds [sep]. *)
Lemma split_on_concat sep (l : list string) :
  l <> [] ->
  Forall (fun w => mem sep w = false) l ->
  split_on sep (String.concat (String sep EmptyString) l) = l.
Proof.
  induction l as [|w l IH]; [congruence|]. intros _ H.
  inversion H as [|? ? Hw Hl]; subst.
  destruct l as [|w' l].
  - simpl. apply split_on_single, Hw.
  - change (String.concat (String sep "") (w :: w' :: l))
      with (w +:+ String sep (String.concat (String sep "") (w' :: l))).
    rewrite split_on_cons by assumption.
    rewrite IH; [reflexivity|discriminate|assumption].
Qed.

Lemma joined_cons w l : joined (w :: l) = w +:+ joined l.
Proof.
  unfold joined. destruct l as [|w' l].
  - simpl. rewrite app_nil_r. reflexivity.
  - reflexivity.
Qed.

(** The text [writelines] leaves splits back into the lines written, as
    long as no line holds a newline of its own. *)
Lemma split_written (ls : list string) :
  Forall (fun l => mem newline l = false) ls ->
  split_on newline (joined (map (fun l => l +:+ nl) ls)) = ls ++ [EmptyString].
Proof.
  induction ls as [|l ls IH]; intros H; [reflexivity|].
  inversion H; subst. simpl map. rewrite joined_cons.
  unfold nl at 1. rewrite app_assoc_s, app_cons, app_nil_l.
  rewrite split_on_cons by assumption. rewrite IH by assumption. reflexivity.
Qed.

Lemma lines_written (ls : list string) :
  Forall (fun l => mem newline l = false) ls ->
  lines (joined (map (fun l => l +:+ nl) ls)) = ls.
Proof.
  intros H. unfold lines. rewrite (split_written ls H).
  rewrite List.last_last, List.removelast_last. reflexivity.
Qed.

End TextFacts.

Module PathFacts.
Import Text TextFacts.

Lemma filter_parts_id (l : list string) :
  Forall clean l -> filter (fun c => is_part c = true) l = l.
Proof.
  induction 1 as [|c l [Hc _] _ IH]; [reflexivity|].
  rewrite filter_cons_True by exact Hc. f_equal. exact IH.
Qed.

Lemma parts_clean (s : string) :
  Forall clean (filter (fun c => is_part c = true) (split_on slash s)).
Proof.
  apply Forall_forall. intros c Hc.
  apply list_elem_of_filter in Hc as [Hp Hin]. split; [exact Hp|].
  pose proof (split_on_free slash s) as H.
  rewrite Forall_forall in H. apply H, Hin.
Qed.

(** What [Path] returns: clean parts, after the anchor when there is one. *)
Lemma Path_shape (s : string) :
  exists l, Forall clean l /\ (Path s = l \/ Path s = "/" :: l).
Proof.
  exists (filter (fun c => is_part c = true) (split_on slash s)).
  split; [apply parts_clean|].
  unfold Path. destruct s as [|c s]; [left; reflexivity|].
  destruct (Ascii.eqb c slash); [right|left]; reflexivity.
Qed.

Lemma clean_not_anchor c : clean c -> String.eqb c "/" = false.
Proof.
  intros [_ H]. destruct (String.eqb_spec c "/") as [->|]; [|reflexivity].
  discriminate H.
Qed.

Lemma split_concat_clean (l : list string) :
  Forall clean l ->
  filter (fun c => is_part c = true) (split_on slash (String.concat "/" l)) = l.
Proof.
  intros H. destruct l as [|a l]; [reflexivity|].
  change "/" with (String slash EmptyString).
  rewrite split_on_concat; [apply filter_parts_id, H|discriminate|].
  eapply Forall_impl; [exact H|]. intros c [_ Hc]. exact Hc.
Qed.

Lemma Path_str_relative (l : list string) : Forall clean l -> Path (str l) = l.
Proof.
  intros H. destruct l as [|a l]; [reflexivity|].
  inversion H as [|? ? Ha Hl]; subst.
  unfold str. rewrite (clean_not_anchor a Ha).
  unfold Path. rewrite (split_concat_clean (a :: l) H).
  destruct a as [|c a]; [destruct Ha as [Ha _]; discriminate Ha|].
  assert (Hc : Ascii.eqb c slash = false).
  { destruct Ha as [_ Ha]. simpl in Ha. apply orb_false_iff in Ha as [Ha _].
    rewrite Ascii.eqb_sym. exact Ha. }
  destruct l as [|b l].
  - change (String.concat "/" [String c a]) with (String c a).
    cbv iota. rewrite Hc. reflexivity.
  - change (String.concat "/" (String c a :: b :: l))
      with (String c (a +:+ "/" +:+ String.concat "/" (b :: l))).
    cbv iota. rewrite Hc. reflexivity.
Qed.

Lemma Path_str_absolute (l : list string) :
  Forall clean l -> Path (str ("/" :: l)) = "/" :: l.
Proof.
  intros H. unfold str. change (String.eqb "/" "/") with true. cbv iota.
  change ("/" +:+ String.concat "/" l) with (String slash (String.concat "/" l)).
  unfold Path. rewrite Ascii.eqb_refl. f_equal.
  simpl split_on.
  rewrite filter_cons_False by (intros Hf; discriminate Hf).
  apply split_concat_clean, H.
Qed.

(** [Path(str(Path(s))) == Path(s)]. *)
Lemma Path_str_Path (s : string) : Path (str (Path s)) = Path s.
Proof.
  destruct (Path_shape s) as (l & Hl & [-> | ->]).
  - apply Path_str_relative, Hl.
  - apply Path_str_absolute, Hl.
Qed.

End PathFacts.

(** ** The file system *)

Module FSFacts.

Lemma stat_app (p q : path) (n : node) : stat (p ++ q) n = stat p n ≫= stat q.
Proof.
  revert n. induction p as [|c p IH]; intros n; [reflexivity|].
  simpl. destruct n as [| |es]; try reflexivity.
  destruct (es !! c) as [child|]; simpl; [apply IH|reflexivity].
Qed.

Lemma path_exists_stat p n : path_exists p n = true <-> is_Some (stat p n).
Proof.
  unfold path_exists. destruct (stat p n); split; intros H;
    try reflexivity; try discriminate; eauto. destruct H; discriminate.
Qed.

Lemma path_is_dir_stat p n :
  path_is_dir p n = true <-> exists es, stat p n = Some (Dir es).
Proof.
  unfold path_is_dir. destruct (stat p n) as [[| |es]|]; split; intros H;
    try reflexivity; try discriminate; eauto; destruct H; discriminate.
Qed.

(** *** [mkdir] *)

Lemma mkdir_p_is_dir p n n' : mkdir_p p n = Ok n' -> path_is_dir p n' = true.
Proof.
  revert n n'. induction p as [|c p IH]; intros n n' H; simpl in H.
  - destruct n; inversion H; subst; reflexivity.
  - destruct n as [| |es]; try discriminate.
    destruct (mkdir_p p (default (Dir ∅) (es !! c))) as [m|e] eqn:E; inversion H; subst.
    unfold path_is_dir. simpl. rewrite lookup_insert_eq. simpl.
    apply IH in E. exact E.
Qed.

(** A directory that was not there is created empty. *)
Lemma mkdir_p_fresh p n n' :
  stat p n = None -> mkdir_p p n = Ok n' -> stat p n' = Some (Dir ∅).
Proof.
  revert n n'. induction p as [|c p IH]; intros n n' Hs H; simpl in *.
  - discriminate.
  - destruct n as [| |es]; try discriminate.
    destruct (mkdir_p p (default (Dir ∅) (es !! c))) as [m|e] eqn:E; inversion H; subst.
    rewrite lookup_insert_eq. simpl.
    destruct (es !! c) as [child|] eqn:Ec; simpl in *.
    + eapply IH; eassumption.
    + clear IH Hs H. revert m E. induction p as [|d p IHp]; intros m E; simpl in E.
      * inversion E; reflexivity.
      * rewrite lookup_empty in E. simpl in E.
        destruct (mkdir_p p (Dir ∅)) as [m'|] eqn:E'; inversion E; subst.
        simpl. rewrite lookup_insert_eq. simpl. apply IHp. reflexivity.
Qed.

(** [mkdir] leaves what exists where it is, with its kind. *)
Lemma mkdir_p_keeps p n n' q x :
  mkdir_p p n = Ok n' -> stat q n = Some x ->
  exists x', stat q n' = Some x' /\ is_dir x' = is_dir x
             /\ (is_dir x = false -> x' = x).
Proof.
  revert n n' q x. induction p as [|c p IH]; intros n n' q x H Hq; simpl in H.
  - destruct n; inversion H; subst; eauto.
  - destruct n as [| |es]; try discriminate.
    destruct (mkdir_p p (default (Dir ∅) (es !! c))) as [m|e] eqn:E; inversion H; subst.
    destruct q as [|d q]; simpl in Hq |- *.
    + inversion Hq; subst. eexists; split; [reflexivity|]. split; [reflexivity|].
      discriminate.
    + destruct (decide (c = d)) as [->|Hne].
      * rewrite lookup_insert_eq. simpl.
        destruct (es !! d) as [child|]; simpl in *; [|discriminate].
        eapply IH; eassumption.
      * rewrite lookup_insert_ne by exact Hne. eauto.
Qed.

Lemma mkdir_p_keeps_exists p n n' q :
  mkdir_p p n = Ok n' -> path_exists q n = true -> path_exists q n' = true.
Proof.
  intros H Hq. apply path_exists_stat in Hq as [x Hx].
  destruct (mkdir_p_keeps _ _ _ _ _ H Hx) as (x' & Hx' & _).
  apply path_exists_stat. eauto.
Qed.

(** *** [open(.., 'w')] *)

Lemma write_text_stat p t n n' : write_text p t n = Ok n' -> stat p n' = Some (File t).
Proof.
  revert n n'. induction p as [|c p IH]; intros n n' H; simpl in H.
  - destruct n; inversion H; reflexivity.
  - destruct n as [| |es]; try discriminate.
    destruct (es !! c) as [child|] eqn:Ec.
    + destruct (write_text p t child) as [m|] eqn:E; inversion H; subst.
      simpl. rewrite lookup_insert_eq. simpl. eapply IH, E.
    + destruct p; inversion H; subst. simpl. rewrite lookup_insert_eq. reflexivity.
Qed.

(** Writing a file leaves what exists where it is; directories stay
    directories, and only the file written changes. *)
Lemma write_text_keeps p t n n' q x :
  write_text p t n = Ok n' -> stat q n = Some x ->
  exists x', stat q n' = Some x' /\ is_dir x' = is_dir x.
Proof.
  revert n n' q x. induction p as [|c p IH]; intros n n' q x H Hq; simpl in H.
  - destruct n as [| |es]; inversion H; subst;
      (destruct q as [|d q]; simpl in Hq; [inversion Hq; subst; eauto|discriminate]).
  - destruct n as [| |es]; try discriminate.
    destruct q as [|d q]; simpl in Hq.
    + inversion Hq; subst.
      destruct (es !! c) as [child|]; [destruct (write_text p t child)|destruct p];
        inversion H; subst; simpl; eauto.
    + destruct (es !! c) as [child|] eqn:Ec.
      * destruct (write_text p t child) as [m|] eqn:E; inversion H; subst. simpl.
        destruct (decide (c = d)) as [->|Hne].
        -- rewrite lookup_insert_eq. rewrite Ec in Hq. simpl in *.
           eapply IH; eassumption.
        -- rewrite lookup_insert_ne by exact Hne. eauto.
      * destruct p; inversion H; subst. simpl.
        destruct (decide (c = d)) as [->|Hne].
        -- rewrite Ec in Hq. discriminate.
        -- rewrite lookup_insert_ne by exact Hne. eauto.
Qed.

Lemma write_text_keeps_exists p t n n' q :
  write_text p t n = Ok n' -> path_exists q n = true -> path_exists q n' = true.
Proof.
  intros H Hq. apply path_exists_stat in Hq as [x Hx].
  destruct (write_text_keeps _ _ _ _ _ _ H Hx) as (x' & Hx' & _).
  apply path_exists_stat. eauto.
Qed.

Lemma write_text_keeps_dir p t n n' q :
  write_text p t n = Ok n' -> path_is_dir q n = true -> path_is_dir q n' = true.
Proof.
  intros H Hq. apply path_is_dir_stat in Hq as [es Hx].
  destruct (write_text_keeps _ _ _ _ _ _ H Hx) as (x' & Hx' & Hd).
  unfold path_is_dir. rewrite Hx'. destruct x'; simpl in Hd; congruence.
Qed.

(** *** [rmtree] *)

Lemma stat_unlink_self p n : p <> [] -> stat p (unlink p n) = None.
Proof.
  revert n. induction p as [|c p IH]; intros n Hp; [congruence|].
  simpl. destruct n as [| |es]; try reflexivity.
  destruct p as [|d p].
  - simpl. rewrite lookup_delete_eq. reflexivity.
  - destruct (es !! c) as [child|] eqn:Ec.
    + change (stat (c :: d :: p) (Dir (<[c:=unlink (d :: p) child]> es)))
        with (<[c:=unlink (d :: p) child]> es !! c ≫= stat (d :: p)).
      rewrite lookup_insert_eq. simpl mbind. apply IH. discriminate.
    + change (stat (c :: d :: p) (Dir es)) with (es !! c ≫= stat (d :: p)).
      rewrite Ec. reflexivity.
Qed.

Lemma rmtree_gone p n n' : rmtree p n = (None, n') -> path_exists p n' = false.
Proof.
  unfold rmtree. destruct (stat p n) as [[| |es]|]; try discriminate.
  destruct p as [|c p]; [discriminate|]. intros H. injection H as H. subst n'.
  unfold path_exists.
  change (match stat (c :: p) (unlink (c :: p) n) with
          | Some _ => true | None => false end = false).
  rewrite stat_unlink_self by discriminate. reflexivity.
Qed.

End FSFacts.

(** ** What an operation leaves alone *)

Module FrameFacts.
Import FSFacts.

Lemma is_prefix_cons c d p q :
  is_prefix (c :: p) (d :: q) = true <-> c = d /\ is_prefix p q = true.
Proof. simpl. rewrite andb_true_iff, String.eqb_eq. reflexivity. Qed.

Lemma is_prefix_refl p : is_prefix p p = true.
Proof. induction p as [|c p IH]; [reflexivity|]. apply is_prefix_cons; auto. Qed.

Lemma is_prefix_app p r : is_prefix p (p ++ r) = true.
Proof. induction p as [|c p IH]; [reflexivity|]. apply is_prefix_cons; auto. Qed.

Lemma is_prefix_trans p q r :
  is_prefix p q = true -> is_prefix q r = true -> is_prefix p r = true.
Proof.
  revert q r. induction p as [|c p IH]; intros q r H1 H2; [reflexivity|].
  destruct q as [|d q]; [discriminate|]. destruct r as [|e r]; [discriminate|].
  apply is_prefix_cons in H1 as [-> H1]. apply is_prefix_cons in H2 as [-> H2].
  apply is_prefix_cons. eauto.
Qed.

Lemma is_prefix_spec p q : is_prefix p q = true <-> exists r, q = p ++ r.
Proof.
  split.
  - revert q. induction p as [|c p IH]; intros q H; [eauto|].
    destruct q as [|d q]; [discriminate|]. apply is_prefix_cons in H as [-> H].
    destruct (IH q H) as [r ->]. eauto.
  - intros [r ->]. apply is_prefix_app.
Qed.

Lemma is_prefix_snoc q p x :
  is_prefix q (p ++ [x]) = true -> is_prefix q p = true \/ q = p ++ [x].
Proof.
  revert p. induction q as [|c q IH]; intros p H; [left; reflexivity|].
  destruct p as [|d p].
  - simpl in H. apply andb_true_iff in H as [Hc Hq]. apply String.eqb_eq in Hc.
    subst. destruct q; [right; reflexivity|discriminate].
  - simpl app in H. apply is_prefix_cons in H as [-> H].
    destruct (IH p H) as [Hp| ->]; [left; apply is_prefix_cons; auto|right; reflexivity].
Qed.

Lemma parent_is_prefix p : is_prefix (parent p) p = true.
Proof.
  destruct p as [|a p]; [reflexivity|].
  destruct p as [|b p].
  - unfold parent. destruct (String.eqb a "/"); [apply is_prefix_refl|reflexivity].
  - unfold parent. apply is_prefix_spec. exists [List.last (b :: p) a].
    change (a :: b :: p = List.removelast (a :: b :: p) ++ [List.last (b :: p) a]).
    rewrite (List.app_removelast_last a) at 1 by discriminate. reflexivity.
Qed.

Lemma apart_sym p q : apart p q = apart q p.
Proof. unfold apart. apply andb_comm. Qed.

Lemma apart_cons c d p q :
  apart (c :: p) (d :: q) = true -> c <> d \/ apart p q = true.
Proof.
  unfold apart. simpl. destruct (String.eqb_spec c d) as [->|Hne]; [|auto].
  rewrite String.eqb_refl. simpl. auto.
Qed.

Lemma apart_nil_l q : apart [] q = false.
Proof. reflexivity. Qed.

Lemma apart_nil_r p : apart p [] = false.
Proof. rewrite apart_sym. reflexivity. Qed.

Lemma apart_snoc p q x : apart p q = true -> apart (p ++ [x]) q = true.
Proof.
  unfold apart. intros H. apply andb_true_iff in H as [H1 H2].
  apply negb_true_iff in H1, H2. apply andb_true_iff. split; apply negb_true_iff.
  - destruct (is_prefix (p ++ [x]) q) eqn:E; [|reflexivity].
    rewrite <- H1. symmetry. eapply is_prefix_trans; [apply is_prefix_app|exact E].
  - destruct (is_prefix q (p ++ [x])) eqn:E; [|reflexivity].
    apply is_prefix_snoc in E as [E| ->]; [congruence|].
    rewrite is_prefix_app in H1. discriminate.
Qed.

Lemma apart_parent p q : apart p q = true -> is_prefix q (parent p) = false.
Proof.
  unfold apart. intros H. apply andb_true_iff in H as [_ H]. apply negb_true_iff in H.
  destruct (is_prefix q (parent p)) eqn:E; [|reflexivity].
  rewrite <- H. symmetry. eapply is_prefix_trans; [exact E|apply parent_is_prefix].
Qed.

(** Removing a tree changes nothing at a path apart from it. *)
Lemma stat_unlink_apart p q n : apart p q = true -> stat q (unlink p n) = stat q n.
Proof.
  revert q n. induction p as [|c p IH]; intros q n H; [reflexivity|].
  destruct q as [|d q]; [rewrite apart_nil_r in H; discriminate|].
  destruct n as [| |es]; try reflexivity.
  apply apart_cons in H.
  destruct p as [|c' p].
  - destruct H as [Hne|H]; [|rewrite apart_nil_l in H; discriminate].
    simpl. rewrite lookup_delete_ne by exact Hne. reflexivity.
  - change (unlink (c :: c' :: p) (Dir es)) with
      (match es !! c with
       | Some child => Dir (<[c := unlink (c' :: p) child]> es)
       | None => Dir es
       end).
    destruct (es !! c) as [child|] eqn:Ec; [|reflexivity].
    simpl stat. destruct (decide (c = d)) as [->|Hne].
    + rewrite lookup_insert_eq, Ec. simpl.
      destruct H as [Hne|H]; [congruence|]. apply IH, H.
    + rewrite lookup_insert_ne by exact Hne. reflexivity.
Qed.

Lemma stat_rmtree_apart p q n : apart p q = true -> stat q (snd (rmtree p n)) = stat q n.
Proof.
  intros H. unfold rmtree. destruct (stat p n) as [[| |es]|]; try reflexivity.
  destruct p as [|c p]; [rewrite apart_nil_l in H; discriminate|].
  apply stat_unlink_apart, H.
Qed.

(** Putting a node changes nothing at a path apart from it. *)
Lemma stat_put_apart p x q n :
  apart p q = true -> stat q (Modelled.put p x n) = stat q n.
Proof.
  revert q n. induction p as [|c p IH]; intros q n H;
    [rewrite apart_nil_l in H; discriminate|].
  destruct q as [|d q]; [rewrite apart_nil_r in H; discriminate|].
  destruct n as [| |es]; try reflexivity.
  apply apart_cons in H.
  destruct p as [|c' p].
  - destruct H as [Hne|H]; [|rewrite apart_nil_l in H; discriminate].
    simpl. rewrite lookup_insert_ne by exact Hne. reflexivity.
  - change (Modelled.put (c :: c' :: p) x (Dir es)) with
      (match es !! c with
       | Some child => Dir (<[c := Modelled.put (c' :: p) x child]> es)
       | None => Dir es
       end).
    destruct (es !! c) as [child|] eqn:Ec; [|reflexivity].
    simpl stat. destruct (decide (c = d)) as [->|Hne].
    + rewrite lookup_insert_eq, Ec. simpl.
      destruct H as [Hne|H]; [congruence|]. apply IH, H.
    + rewrite lookup_insert_ne by exact Hne. reflexivity.
Qed.

Lemma stat_below_empty q : q <> [] -> stat q (Dir ∅) = None.
Proof. destruct q; [congruence|]. intros _. simpl. rewrite lookup_empty. reflexivity. Qed.

(** [mkdir] changes nothing except at the path made and above it. *)
Lemma stat_mkdir_p_other p q n n' :
  mkdir_p p n = Ok n' -> is_prefix q p = false -> stat q n' = stat q n.
Proof.
  revert q n n'. induction p as [|c p IH]; intros q n n' H Hq; simpl in H.
  - destruct n; inversion H; subst; reflexivity.
  - destruct n as [| |es]; try discriminate.
    destruct (mkdir_p p (default (Dir ∅) (es !! c))) as [m|e] eqn:E; inversion H; subst.
    destruct q as [|d q]; [discriminate|]. simpl.
    destruct (decide (c = d)) as [->|Hne].
    + rewrite lookup_insert_eq. simpl.
      assert (Hq' : is_prefix q p = false).
      { simpl in Hq. rewrite String.eqb_refl in Hq. exact Hq. }
      rewrite (IH q _ _ E Hq').
      destruct (es !! d); [reflexivity|]. simpl.
      apply stat_below_empty. intros ->. discriminate.
    + rewrite lookup_insert_ne by exact Hne. reflexivity.
Qed.

(** Writing a file changes nothing except at the file and above it. *)
Lemma stat_write_text_other p t q n n' :
  write_text p t n = Ok n' -> is_prefix q p = false -> stat q n' = stat q n.
Proof.
  revert q n n'. induction p as [|c p IH]; intros q n n' H Hq; simpl in H.
  - destruct q as [|d q]; [discriminate|].
    destruct n; inversion H; subst; reflexivity.
  - destruct n as [| |es]; try discriminate.
    destruct q as [|d q]; [discriminate|].
    assert (Hq' : c = d -> is_prefix q p = false).
    { intros ->. simpl in Hq. rewrite String.eqb_refl in Hq. exact Hq. }
    destruct (es !! c) as [child|] eqn:Ec.
    + destruct (write_text p t child) as [m|] eqn:E; inversion H; subst. simpl.
      destruct (decide (c = d)) as [->|Hne].
      * rewrite lookup_insert_eq, Ec. simpl. eapply IH; eauto.
      * rewrite lookup_insert_ne by exact Hne. reflexivity.
    + destruct p; inversion H; subst. simpl.
      destruct (decide (c = d)) as [->|Hne].
      * rewrite lookup_insert_eq, Ec. simpl.
        destruct q as [|d' q]; [discriminate (Hq' eq_refl)|reflexivity].
      * rewrite lookup_insert_ne by exact Hne. reflexivity.
Qed.

End FrameFacts.

(** ** The table store *)

Module TableFacts.
Import FSFacts FrameFacts Modelled.

Lemma concat_chunks n k (df : DataFrame) : concat (chunks n k df) = take (n * k) df.
Proof.
  revert df. induction n as [|n IH]; intros df; simpl; [reflexivity|].
  rewrite IH. apply take_take_drop.
Qed.

(** The partitions hold the rows, each once, in their order. *)
Lemma concat_partitions n (df : DataFrame) : concat (partitions n df) = df.
Proof.
  unfold partitions. rewrite concat_chunks. apply take_ge.
  set (m := Nat.max 1 n). assert (Hm : m <> 0) by lia.
  pose proof (Nat.div_mod_eq (length df + m - 1) m) as E.
  pose proof (Nat.mod_upper_bound (length df + m - 1) m Hm). lia.
Qed.

Lemma rows_of_imap (g : nat -> string) (l : list DataFrame) :
  flat_map rows_of (imap (fun i rows => (g i, Parquet rows)) l) = concat l.
Proof.
  revert g. induction l as [|x l IH]; intros g; [reflexivity|].
  rewrite imap_cons. simpl. f_equal. apply (IH (g ∘ S)).
Qed.

Lemma keys_imap (g : nat -> string) (l : list DataFrame) k :
  k ∈ (imap (fun i rows => (g i, Parquet rows)) l).*1 -> exists i, k = g i.
Proof.
  revert g. induction l as [|x l IH]; intros g H; [inversion H|].
  rewrite imap_cons, fmap_cons in H. apply elem_of_cons in H as [->|H]; [eauto|].
  destruct (IH (g ∘ S) H) as [i ->]. eauto.
Qed.

Lemma NoDup_keys_imap (g : nat -> string) (l : list DataFrame) :
  Inj eq eq g -> NoDup (imap (fun i rows => (g i, Parquet rows)) l).*1.
Proof.
  revert g. induction l as [|x l IH]; intros g Hg; [constructor|].
  rewrite imap_cons, fmap_cons. constructor.
  - intros H. apply (keys_imap (g ∘ S)) in H as [i E]. simpl in E.
    apply Hg in E. discriminate.
  - apply (IH (g ∘ S)). intros i j E. apply Hg in E. congruence.
Qed.

Lemma part_name_inj : Inj eq eq part_name.
Proof.
  intros i j E. unfold part_name in E.
  apply String.app_inj in E. apply (inj pretty) in E. exact E.
Qed.

(** No two partition files of an artifact share a name. *)
Lemma part_files_NoDup n df : NoDup (part_files n df).*1.
Proof. apply NoDup_keys_imap, part_name_inj. Qed.

Lemma put_cons d q x es :
  q <> [] ->
  put (d :: q) x (Dir es) =
  match es !! d with
  | Some child => Dir (<[d := put q x child]> es)
  | None => Dir es
  end.
Proof. destruct q; [congruence|reflexivity]. Qed.

Lemma put_child p c x n es :
  stat p n = Some (Dir es) ->
  stat p (put (p ++ [c]) x n) = Some (Dir (<[c := x]> es)).
Proof.
  revert n. induction p as [|d p IH]; intros n H.
  - simpl in H. inversion H; subst. reflexivity.
  - simpl in H. destruct n as [| |es']; try discriminate.
    destruct (es' !! d) as [child|] eqn:Ed; [|discriminate]. simpl in H.
    change ((d :: p) ++ [c]) with (d :: (p ++ [c])).
    rewrite put_cons by (destruct p; discriminate).
    rewrite Ed. simpl. rewrite lookup_insert_eq. simpl. apply IH, H.
Qed.

Lemma put_parts p parts n es :
  stat p n = Some (Dir es) ->
  stat p (foldr (fun part n => put (p ++ [part.1]) part.2 n) n parts)
    = Some (Dir (foldr (fun part m => <[part.1 := part.2]> m) es parts)).
Proof.
  intros H. induction parts as [|part parts IH]; [exact H|].
  simpl. apply put_child, IH.
Qed.


(** After everything at [p] was removed, the directory can be made. *)
Lemma mkdir_p_after_unlink p n :
  p <> [] -> is_Some (stat p n) -> exists n', mkdir_p p (unlink p n) = Ok n'.
Proof.
  revert n. induction p as [|c p IH]; intros n Hp [x Hx]; [congruence|].
  simpl in Hx. destruct n as [| |es]; try discriminate.
  destruct (es !! c) as [child|] eqn:Ec; [|discriminate]. simpl in Hx.
  destruct p as [|c' p].
  - simpl. rewrite lookup_delete_eq. simpl. eauto.
  - change (unlink (c :: c' :: p) (Dir es)) with
      (match es !! c with
       | Some child => Dir (<[c := unlink (c' :: p) child]> es)
       | None => Dir es
       end).
    rewrite Ec. destruct (IH child) as [m Hm]; [discriminate|eauto|].
    change (mkdir_p (c :: c' :: p) (Dir (<[c:=unlink (c' :: p) child]> es))) with
      (match mkdir_p (c' :: p)
               (default (Dir ∅) (<[c:=unlink (c' :: p) child]> es !! c)) with
       | Ok n' => Ok (Dir (<[c := n']> (<[c:=unlink (c' :: p) child]> es)))
       | Err e => Err e
       end).
    rewrite lookup_insert_eq. cbv beta iota delta [default id]. rewrite Hm. eauto.
Qed.

(** What a successful write leaves at its destination: the artifact of the
    rows written, whatever was there before. *)
Lemma table_write_overwrites df dest k fs fs' :
  table_write df dest true k fs = (None, fs') ->
  stat (Path dest) fs' = Some (Dir (artifact k df)).
Proof.
  unfold table_write. rewrite andb_false_r.
  set (p := Path dest).
  set (cleared := if path_exists p fs then remove_all p fs else fs).
  assert (Hc : stat p cleared = None \/ (p = [] /\ cleared = Dir ∅)).
  { unfold cleared, path_exists. destruct (stat p fs) eqn:E; [|left; exact E].
    destruct p as [|c p]; [right; split; reflexivity|left].
    apply stat_unlink_self. discriminate. }
  destruct (mkdir_p p cleared) as [made|e] eqn:Hm; [|discriminate].
  intros H. injection H as <-.
  assert (Hmade : stat p made = Some (Dir ∅)).
  { destruct Hc as [Hc|[Hp Hc]]; [eapply mkdir_p_fresh; eassumption|].
    rewrite Hp, Hc in *. simpl in Hm. inversion Hm. reflexivity. }
  rewrite (put_parts p _ made ∅ Hmade). reflexivity.
Qed.

(** Overwriting what exists cannot fail. *)
Lemma table_write_possible df dest k fs :
  path_exists (Path dest) fs = true ->
  exists fs', table_write df dest true k fs = (None, fs').
Proof.
  intros He. unfold table_write. rewrite andb_false_r, He.
  apply path_exists_stat in He.
  destruct (Path dest) as [|c p] eqn:Ep.
  - simpl. eauto.
  - unfold remove_all.
    destruct (mkdir_p_after_unlink (c :: p) fs) as [made Hm]; [discriminate|exact He|].
    rewrite Hm. eauto.
Qed.

(** Reading an artifact gives the rows written, in some order. *)
Lemma table_read_artifact dest k df fs :
  stat (Path dest) fs = Some (Dir (artifact k df)) ->
  exists rows, table_read dest fs = Ok rows /\ rows ≡ₚ df.
Proof.
  intros H. unfold table_read. rewrite H. eexists. split; [reflexivity|].
  change (flat_map rows_of (map_to_list (artifact k df)) ≡ₚ df).
  unfold artifact. rewrite (map_to_list_to_map _ (part_files_NoDup k df)).
  unfold part_files. rewrite rows_of_imap, concat_partitions. reflexivity.
Qed.

(** A write changes nothing at a path apart from its destination. *)
Lemma table_write_apart df dest ov k fs q :
  apart (Path dest) q = true ->
  stat q (snd (table_write df dest ov k fs)) = stat q fs.
Proof.
  intros H. unfold table_write. set (p := Path dest) in *.
  destruct (path_exists p fs && negb ov); [reflexivity|].
  set (cleared := if path_exists p fs then remove_all p fs else fs).
  assert (Hc : stat q cleared = stat q fs).
  { unfold cleared. destruct (path_exists p fs); [|reflexivity].
    destruct p as [|c p]; [rewrite apart_nil_l in H; discriminate|].
    apply stat_unlink_apart, H. }
  destruct (mkdir_p p cleared) as [made|e] eqn:Hm; [|exact Hc].
  simpl. rewrite <- Hc.
  assert (Hq : is_prefix q p = false).
  { unfold apart in H. apply andb_true_iff in H as [_ H]. apply negb_true_iff, H. }
  rewrite <- (stat_mkdir_p_other _ _ _ _ Hm Hq).
  induction (part_files k df) as [|part parts IH]; [reflexivity|].
  simpl. rewrite stat_put_apart by (apply apart_snoc, H). exact IH.
Qed.

Lemma parent_keeps_apart p q : apart p q = true -> is_prefix q (parent p) = false.
Proof. apply apart_parent. Qed.

(** The application builder changes nothing at a path apart from its workspace. *)
Lemma app_create_apart (layout : DataFrame -> string -> gmap string node)
    dir df st fs q :
  apart (Path dir) q = true ->
  stat q (snd (app_create layout dir df st fs)) = stat q fs.
Proof.
  intros H. unfold app_create.
  destruct (path_exists (Path dir) fs); [reflexivity|].
  destruct (mkdir_p (parent (Path dir)) fs) as [made|e] eqn:Hm; [|reflexivity].
  simpl. rewrite stat_put_apart by exact H.
  apply (stat_mkdir_p_other _ _ _ _ Hm), apart_parent, H.
Qed.

Lemma table_write_frame df dest ov k fs r fs' q :
  table_write df dest ov k fs = (r, fs') ->
  apart (Path dest) q = true -> stat q fs' = stat q fs.
Proof.
  intros H Ha. rewrite <- (table_write_apart df dest ov k fs q Ha), H. reflexivity.
Qed.

Lemma rmtree_frame p fs r fs' q :
  rmtree p fs = (r, fs') -> apart p q = true -> stat q fs' = stat q fs.
Proof.
  intros H Ha. rewrite <- (stat_rmtree_apart p q fs Ha), H. reflexivity.
Qed.

Lemma app_create_frame (layout : DataFrame -> string -> gmap string node)
    dir df st fs r fs' q :
  app_create layout dir df st fs = (r, fs') ->
  apart (Path dir) q = true -> stat q fs' = stat q fs.
Proof.
  intros H Ha. rewrite <- (app_create_apart layout dir df st fs q Ha), H. reflexivity.
Qed.

End TableFacts.

(** ** Doing again what was done *)

Module AgainFacts.
Import FSFacts FrameFacts TableFacts Modelled.

(** [mkdir] of a directory that exists changes nothing. *)
Lemma mkdir_p_existing p n : path_is_dir p n = true -> mkdir_p p n = Ok n.
Proof.
  revert n. induction p as [|c p IH]; intros n H.
  - unfold path_is_dir in H. simpl in *. destruct n; try discriminate. reflexivity.
  - unfold path_is_dir in H. simpl in H. destruct n as [| |es]; try discriminate.
    destruct (es !! c) as [child|] eqn:Ec; [|discriminate]. simpl in H.
    simpl. rewrite Ec. simpl. rewrite (IH child) by exact H.
    rewrite insert_id by exact Ec. reflexivity.
Qed.

(** Writing to a file the text it holds changes nothing. *)
Lemma write_text_same p t n : stat p n = Some (File t) -> write_text p t n = Ok n.
Proof.
  revert n. induction p as [|c p IH]; intros n H.
  - simpl in H. inversion H. reflexivity.
  - simpl in H. destruct n as [| |es]; try discriminate.
    destruct (es !! c) as [child|] eqn:Ec; [|discriminate]. simpl in H.
    simpl. rewrite Ec, (IH child) by exact H.
    rewrite insert_id by exact Ec. reflexivity.
Qed.


(** What exists lies in a directory, unless it is its own parent. *)
Lemma parent_of_existing p n :
  is_Some (stat p n) -> parent p <> p -> path_is_dir (parent p) n = true.
Proof.
  intros [x Hx] Hp.
  assert (Hne : p <> []) by (intros ->; apply Hp; reflexivity).
  assert (Hr : path_is_dir (List.removelast p) n = true).
  { rewrite (List.app_removelast_last "" Hne), stat_app in Hx.
    unfold path_is_dir. destruct (stat (List.removelast p) n) as [y|]; [|discriminate].
    simpl in Hx. destruct y as [| |es]; try discriminate. reflexivity. }
  destruct p as [|a [|b p]]; [congruence| |exact Hr].
  unfold parent in *. destruct (String.eqb a "/"); [congruence|exact Hr].
Qed.





(** [glob] looks at the root directory and below it only. *)
Lemma glob_same_input root pattern fs fs' :
  stat root fs = stat root fs' -> glob root pattern fs = glob root pattern fs'.
Proof. intros H. unfold glob. rewrite H. reflexivity. Qed.

End AgainFacts.

(** ** [Path.glob] *)

Module GlobFacts.
Import FSFacts.

Local Arguments Ascii.eqb : simpl never.

(** A part of a pattern without wildcard matches its own name only. *)
Lemma fnmatch_literal seg c :
  is_wild seg = false -> (fnmatch seg c = true <-> c = seg).
Proof.
  unfold is_wild. revert c. induction seg as [|a seg IH]; intros c H.
  - destruct c; simpl; split; intros E; congruence.
  - simpl in H. apply orb_false_iff in H as [H1 H2].
    apply orb_false_iff in H1 as [Ha1 Hs1]. apply orb_false_iff in H2 as [Ha2 Hs2].
    simpl. rewrite (Ascii.eqb_sym a "*"), Ha1, (Ascii.eqb_sym a "?"), Ha2.
    destruct c as [|d c]; [split; intros E; congruence|]. simpl.
    rewrite andb_true_iff, Ascii.eqb_eq, IH by (rewrite Hs1, Hs2; reflexivity).
    split; [intros [-> ->]; reflexivity|intros E; inversion E; auto].
Qed.

Lemma in_flat_map_iff {A B} (f : A -> list B) (l : list A) (y : B) :
  y ∈ flat_map f l <-> exists x, x ∈ l /\ y ∈ f x.
Proof.
  rewrite list_elem_of_In, in_flat_map.
  split; intros (x & H1 & H2); exists x; rewrite ?list_elem_of_In in *; auto.
Qed.

Lemma stat_some_dir c rel child :
  is_Some (stat (c :: rel) child) -> is_dir child = true.
Proof. destruct child; simpl; intros [x H]; congruence. Qed.

(** What the selectors yield: the paths below [here] whose parts match the
    parts of the pattern one by one and which name something in the tree. *)
Lemma select_from_spec segs here n p :
  p ∈ select_from segs here n <->
  exists rel, p = here ++ rel /\ matched segs rel /\ is_Some (stat rel n).
Proof.
  revert here n. induction segs as [|seg rest IH]; intros here n; simpl.
  - rewrite list_elem_of_singleton. split.
    + intros ->. exists []. rewrite app_nil_r. repeat split; [constructor|eauto].
    + intros (rel & -> & Hm & _). inversion Hm. rewrite app_nil_r. reflexivity.
  - assert (Hside : forall (c : string) rel' child,
               matched rest rel' -> is_Some (stat rel' child) ->
               last_seg rest || is_dir child = true).
    { intros c rel' child Hm Hs. destruct rest as [|r rest']; [reflexivity|].
      inversion Hm; subst. simpl. eapply stat_some_dir, Hs. }
    destruct n as [| |es].
    1,2: split; [intros H; inversion H|];
         intros (rel & _ & Hm & [x Hs]); inversion Hm; subst; discriminate Hs.
    destruct (is_wild seg) eqn:Hw.
    + rewrite in_flat_map_iff. split.
      * intros ([name child] & Hin & Hp). apply elem_of_map_to_list in Hin.
        simpl in Hp.
        destruct (fnmatch seg name && (last_seg rest || is_dir child)) eqn:E;
          [|inversion Hp].
        apply andb_true_iff in E as [E _].
        apply IH in Hp as (rel' & -> & Hm & Hs).
        exists (name :: rel'). rewrite <- app_assoc. split; [reflexivity|].
        split; [constructor; assumption|]. simpl. rewrite Hin. exact Hs.
      * intros (rel & -> & Hm & Hs). inversion Hm as [|? c ? rel' Hc Hm']; subst.
        simpl in Hs. destruct (es !! c) as [child|] eqn:Ec; [|destruct Hs; discriminate].
        exists (c, child). split; [apply elem_of_map_to_list, Ec|]. simpl in *.
        rewrite Hc, (Hside c rel' child Hm' Hs). simpl.
        apply IH. exists rel'. rewrite <- app_assoc. auto.
    + split.
      * intros Hp. destruct (es !! seg) as [child|] eqn:Ec; [|inversion Hp].
        destruct (last_seg rest || is_dir child); [|inversion Hp].
        apply IH in Hp as (rel' & -> & Hm & Hs).
        exists (seg :: rel'). rewrite <- app_assoc. split; [reflexivity|].
        split; [constructor; [apply fnmatch_literal; auto|assumption]|].
        simpl. rewrite Ec. exact Hs.
      * intros (rel & -> & Hm & Hs). inversion Hm as [|? c ? rel' Hc Hm']; subst.
        apply fnmatch_literal in Hc; [|exact Hw]. subst c.
        simpl in Hs. destruct (es !! seg) as [child|] eqn:Ec; [|destruct Hs; discriminate].
        simpl in Hs. rewrite (Hside seg rel' child Hm' Hs).
        apply IH. exists rel'. rewrite <- app_assoc. auto.
Qed.

Lemma NoDup_flat_map_keys {A B} (f : string * A -> list B) (l : list (string * A)) :
  NoDup l.*1 ->
  (forall x, x ∈ l -> NoDup (f x)) ->
  (forall x y b, x ∈ l -> y ∈ l -> b ∈ f x -> b ∈ f y -> x.1 = y.1) ->
  NoDup (flat_map f l).
Proof.
  induction l as [|x l IH]; intros Hk Hf Hd; simpl; [constructor|].
  inversion Hk as [|? ? Hx Hk']; subst.
  apply NoDup_app. split; [apply Hf; left|]. split.
  - intros b Hb Hb'. apply in_flat_map_iff in Hb' as (y & Hy & Hby).
    apply Hx. rewrite (Hd x y b); [apply list_elem_of_fmap; eauto|left|right; exact Hy|exact Hb|exact Hby].
  - apply IH; [exact Hk'|intros; apply Hf; right; assumption|].
    intros y z b Hy Hz. apply Hd; right; assumption.
Qed.

(** No path is yielded twice. *)
Lemma select_from_NoDup segs here n : NoDup (select_from segs here n).
Proof.
  revert here n. induction segs as [|seg rest IH]; intros here n; simpl.
  - apply NoDup_singleton.
  - destruct n as [| |es]; try constructor.
    destruct (is_wild seg).
    + apply NoDup_flat_map_keys.
      * apply NoDup_fst_map_to_list.
      * intros [name child] _. simpl.
        destruct (fnmatch seg name && _); [apply IH|constructor].
      * intros [a x] [b y] p _ _ Ha Hb. simpl in *.
        destruct (fnmatch seg a && _); [|inversion Ha].
        destruct (fnmatch seg b && _); [|inversion Hb].
        apply select_from_spec in Ha as (r1 & -> & _).
        apply select_from_spec in Hb as (r2 & E & _).
        rewrite <- !app_assoc in E. apply app_inv_head in E. inversion E. reflexivity.
    + destruct (es !! seg) as [child|]; [|constructor].
      destruct (last_seg rest || is_dir child); [apply IH|constructor].
Qed.

Lemma glob_spec root pattern fs l p :
  glob root pattern fs = Ok l -> (p ∈ l <-> matches root pattern fs p).
Proof.
  unfold glob, matches. destruct pattern as [|c s]; [discriminate|].
  destruct (Ascii.eqb c Text.slash); [discriminate|].
  destruct (Path (String c s)) as [|seg segs] eqn:Hp; [discriminate|].
  unfold path_is_dir.
  destruct (stat root fs) as [[| |es]|] eqn:Hr; intros H; injection H as H; subst l;
    try (split; [intros Hin; inversion Hin|intros [Hd _]; discriminate Hd]).
  change (p ∈ select_from (seg :: segs) root (Dir es) <->
          true = true /\
          exists rel, p = root ++ rel /\ matched (seg :: segs) rel /\ path_exists p fs = true).
  rewrite select_from_spec. split.
  - intros (rel & -> & Hm & Hs). split; [reflexivity|]. exists rel.
    repeat split; [exact Hm|]. apply path_exists_stat.
    rewrite stat_app, Hr. exact Hs.
  - intros (_ & rel & -> & Hm & Hs). exists rel. repeat split; [exact Hm|].
    apply path_exists_stat in Hs. rewrite stat_app, Hr in Hs. exact Hs.
Qed.

Lemma glob_NoDup root pattern fs l : glob root pattern fs = Ok l -> NoDup l.
Proof.
  unfold glob. destruct pattern as [|c s]; [discriminate|].
  destruct (Ascii.eqb c Text.slash); [discriminate|].
  destruct (Path (String c s)) as [|seg segs]; [discriminate|].
  destruct (stat root fs) as [[| |es]|]; intros H; injection H as H; subst l;
    try constructor.
  apply (select_from_NoDup (seg :: segs) root (Dir es)).
Qed.

End GlobFacts.

(** ** The dataset list (cell fa8c0646) *)

Module ManifestFacts.
Import FSFacts GlobFacts.

(** A file can be written where the directory exists and the path does not
    name a directory. *)
Lemma write_text_possible p t n :
  p <> [] ->
  path_is_dir (List.removelast p) n = true -> path_is_dir p n = false ->
  exists n', write_text p t n = Ok n'.
Proof.
  revert n. induction p as [|c p IH]; intros n Hp Hd Hf; [congruence|].
  destruct p as [|d p].
  - simpl in Hd. unfold path_is_dir in Hd, Hf. simpl in Hd, Hf.
    destruct n as [| |es]; try discriminate. simpl.
    destruct (es !! c) as [[| |es']|]; simpl in *; try discriminate; eauto.
  - change (List.removelast (c :: d :: p)) with (c :: List.removelast (d :: p)) in Hd.
    unfold path_is_dir in Hd, Hf.
    change (stat (c :: d :: p) n) with
      (match n with Dir es => es !! c ≫= stat (d :: p) | _ => None end) in Hf.
    change (stat (c :: List.removelast (d :: p)) n) with
      (match n with Dir es => es !! c ≫= stat (List.removelast (d :: p)) | _ => None end) in Hd.
    destruct n as [| |es]; try discriminate.
    change (write_text (c :: d :: p) t (Dir es)) with
      (match es !! c with
       | Some child =>
           match write_text (d :: p) t child with
           | Ok n' => Ok (Dir (<[c := n']> es))
           | Err e => Err e
           end
       | None => Err FileNotFoundError
       end).
    destruct (es !! c) as [child|]; simpl in Hd, Hf; [|discriminate].
    destruct (IH child) as [n' E]; [discriminate|exact Hd|exact Hf|].
    rewrite E. eauto.
Qed.

Lemma parent_is_dir_writable p t n :
  path_is_dir (parent p) n = true -> path_is_dir p n = false ->
  exists n', write_text p t n = Ok n'.
Proof.
  intros Hd Hf. destruct p as [|a p].
  - simpl in Hd. congruence.
  - destruct p as [|b p].
    + unfold parent in Hd. destruct (String.eqb a "/"); [congruence|].
      apply write_text_possible; [discriminate| |exact Hf]. exact Hd.
    + apply write_text_possible; [discriminate| |exact Hf]. exact Hd.
Qed.

(** The cell, step by step, when the kernel knows [genbank_table]. *)
Lemma write_dataset_list_run dataset_path pattern w gt :
  globals w !! "genbank_table" = Some gt ->
  forall r w', write_dataset_list dataset_path pattern w = (r, w') ->
  match glob (Path dataset_path) pattern (fs w) with
  | Err e => r = Err e /\ fs w' = fs w
  | Ok datasets =>
      match mkdir_p (parent (Path gt)) (fs w) with
      | Err e => r = Err e /\ fs w' = fs w
      | Ok made =>
          match write_text (Path gt) (manifest_text datasets) made with
          | Err e => r = Err e /\ fs w' = made
          | Ok written => r = Ok tt /\ fs w' = written
          end
      end
  end.
Proof.
  intros Hgt r w'.
  unfold write_dataset_list, bind, assign, reads, name, reads, updates, writes, logged.
  cbn [fs globals environ spark trace].
  destruct (glob (Path dataset_path) pattern (fs w)) as [ds|e];
    cbn [fs globals environ spark trace];
    [|intros H; inversion H; auto].
  rewrite lookup_insert_ne by discriminate. rewrite Hgt.
  cbn [fs globals environ spark trace].
  destruct (mkdir_p (parent (Path gt)) (fs w)) as [made|e];
    cbn [fs globals environ spark trace];
    [|intros H; inversion H; auto].
  destruct (write_text (Path gt) (manifest_text ds) made) as [written|e];
    cbn [fs globals environ spark trace];
    intros H; inversion H; auto.
Qed.

Lemma manifest_lines (datasets : list path) :
  Forall (fun d => Text.mem Text.newline (str d) = false) datasets ->
  Text.lines (manifest_text datasets) = map str datasets.
Proof.
  intros H. unfold manifest_text.
  rewrite <- (TextFacts.lines_written (map str datasets)).
  - rewrite map_map. reflexivity.
  - apply Forall_map. exact H.
Qed.

End ManifestFacts.

(** * The claims *)

Import FSFacts GlobFacts ManifestFacts.

(** ** File discovery and the dataset list *)

(** C2, as stated, fails: a region file whose name holds a newline is one
    matched file and two lines of the manifest. *)
Lemma C2_newline_counterexample :
  glob (Path Literals.dataset_path) Literals.pattern
       (fs (Sample.kernel Sample.odd_tree true))
    = Ok [Path Literals.dataset_path ++ ["g1"; "antismash"; Sample.odd_name]] /\
  fst (cell_fa8c0646 (Sample.kernel Sample.odd_tree true)) = Ok tt /\
  exists text,
    stat (Path Literals.genbank_table)
         (fs (snd (cell_fa8c0646 (Sample.kernel Sample.odd_tree true))))
      = Some (File text) /\
    Text.lines text
    = ["/home/matinnu/datadrive/vol_atlas_server/datasets/g1/antismash/c1.region001";
       ".gbk"].
Proof.
  split; [vm_compute; reflexivity|]. split; [vm_compute; reflexivity|].
  eexists. split; vm_compute; reflexivity.
Qed.

(** C2 (amended): when the cell succeeds, the manifest holds the path of
    every matched entry, each followed by a newline, in discovery order and
    nothing else; the matched entries are pairwise distinct; if no matched
    path holds a newline, the lines of the manifest are exactly these
    paths, one line per matched entry. Every matched entry exists in the
    file system the write leaves, the directory of the manifest exists
    (created as needed), and whatever was at the manifest's place before is
    replaced. *)
Theorem C2_manifest_lists_matches dataset_path pattern gt (w w' : World) :
  globals w !! "genbank_table" = Some gt ->
  write_dataset_list dataset_path pattern w = (Ok tt, w') ->
  exists datasets,
    glob (Path dataset_path) pattern (fs w) = Ok datasets /\
    (forall p, p ∈ datasets <-> matches (Path dataset_path) pattern (fs w) p) /\
    NoDup datasets /\
    stat (Path gt) (fs w') = Some (File (manifest_text datasets)) /\
    (forallb (fun d => negb (Text.mem Text.newline (str d))) datasets = true ->
     Text.lines (manifest_text datasets) = map str datasets) /\
    Forall (fun d => path_exists d (fs w') = true) datasets /\
    path_is_dir (parent (Path gt)) (fs w') = true.
Proof.
  intros Hgt Hrun.
  pose proof (write_dataset_list_run _ _ _ _ Hgt _ _ Hrun) as H.
  destruct (glob (Path dataset_path) pattern (fs w)) as [ds|e] eqn:Hg;
    [|destruct H; discriminate].
  destruct (mkdir_p (parent (Path gt)) (fs w)) as [made|e] eqn:Hm;
    [|destruct H; discriminate].
  destruct (write_text (Path gt) (manifest_text ds) made) as [written|e] eqn:Hw;
    [|destruct H; discriminate].
  destruct H as [_ Hfs]. rewrite Hfs. exists ds.
  split; [reflexivity|]. split; [intros p; apply (glob_spec _ _ _ _ _ Hg)|].
  split; [apply (glob_NoDup _ _ _ _ Hg)|].
  split; [apply (write_text_stat _ _ _ _ Hw)|].
  split.
  - intros Hnl. apply manifest_lines. apply Forall_forall. intros d Hd.
    rewrite forallb_forall in Hnl. apply list_elem_of_In, Hnl in Hd.
    apply negb_true_iff in Hd. exact Hd.
  - split.
    + apply Forall_forall. intros d Hd.
      apply (glob_spec _ _ _ _ d Hg) in Hd as (_ & rel & _ & _ & He).
      eapply write_text_keeps_exists; [exact Hw|].
      eapply mkdir_p_keeps_exists; [exact Hm|exact He].
    + eapply write_text_keeps_dir; [exact Hw|]. apply (mkdir_p_is_dir _ _ _ Hm).
Qed.

(** The cell of the notebook on the sample: three region files, written
    into a directory that did not exist. *)
Lemma C2_manifest_witness :
  exists datasets,
    glob (Path Literals.dataset_path) Literals.pattern
         (fs (Sample.kernel Sample.tree true)) = Ok datasets /\
    (forall p, p ∈ datasets <->
               matches (Path Literals.dataset_path) Literals.pattern
                       (fs (Sample.kernel Sample.tree true)) p) /\
    NoDup datasets /\
    stat (Path Literals.genbank_table)
         (fs (snd (cell_fa8c0646 (Sample.kernel Sample.tree true))))
      = Some (File (manifest_text datasets)) /\
    (forallb (fun d => negb (Text.mem Text.newline (str d))) datasets = true ->
     Text.lines (manifest_text datasets) = map str datasets) /\
    Forall (fun d => path_exists d
              (fs (snd (cell_fa8c0646 (Sample.kernel Sample.tree true)))) = true)
           datasets /\
    path_is_dir (parent (Path Literals.genbank_table))
      (fs (snd (cell_fa8c0646 (Sample.kernel Sample.tree true)))) = true.
Proof.
  apply (C2_manifest_lists_matches Literals.dataset_path Literals.pattern
           Literals.genbank_table (Sample.kernel Sample.tree true)).
  - vm_compute; reflexivity.
  - vm_compute; reflexivity.
Defined.




(** C8: when nothing matches, the cell still writes the manifest, and the
    manifest is empty: no line at all. The cell succeeds as soon as the
    kernel knows [genbank_table], the directory of the manifest exists or
    can be created, and the manifest's path does not name a directory. *)
Theorem C8_empty_manifest dataset_path pattern gt made (w : World) :
  globals w !! "genbank_table" = Some gt ->
  glob (Path dataset_path) pattern (fs w) = Ok [] ->
  mkdir_p (parent (Path gt)) (fs w) = Ok made ->
  path_is_dir (Path gt) made = false ->
  fst (write_dataset_list dataset_path pattern w) = Ok tt /\
  stat (Path gt) (fs (snd (write_dataset_list dataset_path pattern w))) = Some (File "") /\
  Text.lines "" = [].
Proof.
  intros Hgt Hg Hm Hf.
  destruct (write_dataset_list dataset_path pattern w) as [r w'] eqn:Hrun.
  pose proof (write_dataset_list_run _ _ _ _ Hgt _ _ Hrun) as H.
  rewrite Hg, Hm in H.
  destruct (parent_is_dir_writable (Path gt) (manifest_text []) made) as [written Hw];
    [apply (mkdir_p_is_dir _ _ _ Hm)|exact Hf|].
  rewrite Hw in H. destruct H as [-> Hfs]. simpl. rewrite Hfs.
  split; [reflexivity|]. split; [|reflexivity].
  apply (write_text_stat _ _ _ _ Hw).
Qed.

(** The cell of the notebook on a dataset directory without region files. *)
Lemma C8_empty_manifest_witness :
  fst (cell_fa8c0646 (Sample.kernel Sample.bare_tree true)) = Ok tt /\
  stat (Path Literals.genbank_table)
       (fs (snd (cell_fa8c0646 (Sample.kernel Sample.bare_tree true))))
    = Some (File "") /\
  Text.lines "" = [].
Proof.
  apply (C8_empty_manifest Literals.dataset_path Literals.pattern Literals.genbank_table
           (match Sample.bare_tree with
            | Dir es => Dir (<[".." := Dir {[ "data" := Dir ∅ ]}]> es)
            | n => n
            end)
           (Sample.kernel Sample.bare_tree true)).
  - vm_compute; reflexivity.
  - vm_compute; reflexivity.
  - vm_compute; reflexivity.
  - vm_compute; reflexivity.
Defined.

(** ** The Spark session *)

Ltac world_simpl :=
  cbn [fs globals environ spark trace what before after raised
       Spark.active Spark.started Spark.cid Spark.conf fst snd].

(** C9: [start_new_spark_session] first gets hold of the context of the
    process (the one that is active, or one made for the occasion) and stops
    it, then creates the log directory, and only then builds the session:
    the session returned is a new one carrying the options of the call, and
    it is the only active one afterwards. When the log directory cannot be
    created, the old context has been stopped all the same and none is
    active. *)
Theorem C9_session_restart master_ip app_name log_dir cores memory partitions (w : World) :
  exists old,
    (forall c, Spark.active (spark w) = Some c -> old = c) /\
    match start_new_spark_session master_ip app_name log_dir cores memory partitions w with
    | (Ok (session, sc), w') =>
        map what (since w w') =
          [ SparkContext_getOrCreate; SparkContext_stop (Spark.cid old);
            Mkdir (Path log_dir);
            Builder_getOrCreate
              (session_options master_ip app_name (Path log_dir) cores memory partitions) ] /\
        sc = session /\
        Spark.conf session =
          session_options master_ip app_name (Path log_dir) cores memory partitions /\
        Spark.active (spark w') = Some session
    | (Err e, w') =>
        map what (since w w') =
          [ SparkContext_getOrCreate; SparkContext_stop (Spark.cid old);
            Mkdir (Path log_dir) ] /\
        Spark.active (spark w') = None
    end.
Proof.
  unfold start_new_spark_session, bind, on_spark, updates, writes, logged, ret, since.
  destruct w as [n g env [act started] tr].
  unfold Spark.getOrCreate at 1. world_simpl.
  destruct act as [c|]; world_simpl.
  - exists c. split; [intros c' E; inversion E; reflexivity|].
    unfold Spark.stop, Spark.getOrCreate. world_simpl. rewrite Nat.eqb_refl. world_simpl.
    destruct (mkdir_p (Path log_dir) n) as [made|e]; world_simpl;
      rewrite <- ?app_assoc, drop_app_length; repeat split; reflexivity.
  - exists {| Spark.cid := started; Spark.conf := [] |}.
    split; [intros c' E; inversion E|].
    unfold Spark.stop, Spark.getOrCreate. world_simpl. rewrite Nat.eqb_refl. world_simpl.
    destruct (mkdir_p (Path log_dir) n) as [made|e]; world_simpl;
      rewrite <- ?app_assoc, drop_app_length; repeat split; reflexivity.
Qed.

(** ** [gbk_to_bigslice_app] *)

(** One step of a run of [gbk_to_bigslice_app]: the next library call is
    replaced by each of its possible outcomes. *)
Ltac next_call :=
  world_simpl;
  match goal with
  | |- context [loadSmallFiles2 ?ax ?a ?b ?c ?d ?n] =>
      destruct (loadSmallFiles2 ax a b c d n) as [?df|?e] eqn:?Hload
  | |- context [df_write ?ax ?a ?b ?c ?d ?n] =>
      destruct (df_write ax a b c d n) as [[?e|] ?written] eqn:?Hwrite
  | |- context [path_exists ?p ?n] =>
      destruct (path_exists p n) eqn:?Hexists
  | |- context [rmtree ?p ?n] =>
      destruct (rmtree p n) as [[?e|] ?removed] eqn:?Hrmtree
  | |- context [RawFeatDF_read ?ax ?a ?n] =>
      destruct (RawFeatDF_read ax a n) as [?features|?e] eqn:?Hread
  | |- context [BigsliceApp_create ?ax ?a ?b ?c ?n] =>
      destruct (BigsliceApp_create ax a b c n) as [[?e|] ?created] eqn:?Hcreate
  end.

Ltac gbk_run :=
  unfold gbk_to_bigslice_app, bind, reads, writes, ret, logged, since;
  repeat next_call; world_simpl;
  rewrite <- ?app_assoc, ?drop_app_length; cbn [app].

(** C7: whenever a run of [gbk_to_bigslice_app] reaches the construction of
    the application, the folder it is told to create is the workspace path
    of the call, and nothing exists at that path in the file system the
    construction starts from: it did not exist, or it has just been
    deleted. *)
Theorem C7_workspace_absent_at_create (ax : Axolotl) gt bd ad (w : World) :
  Forall (fun e => match what e with
                   | BigsliceAppCreate dir _ _ =>
                       Path dir = Path bd /\ path_exists (Path bd) (before e) = false
                   | _ => True
                   end)
         (since w (snd (gbk_to_bigslice_app ax gt bd ad w))).
Proof.
  gbk_run; repeat constructor; world_simpl;
    try apply PathFacts.Path_str_Path; try assumption.
  all: rewrite PathFacts.Path_str_Path in *; eapply rmtree_gone; eassumption.
Qed.

Import TableFacts FrameFacts.

(** Every call of the dataset-list cell has the shape [manifest_call] gives. *)
Lemma write_dataset_list_calls dataset_path pattern (w : World) :
  Forall (fun e => manifest_call dataset_path pattern
                     (globals w !! "genbank_table") (what e))
         (since w (snd (write_dataset_list dataset_path pattern w))).
Proof.
  unfold write_dataset_list, bind, assign, reads, name, reads, updates, writes,
    logged, since.
  world_simpl.
  destruct (glob (Path dataset_path) pattern (fs w)) as [ds|e]; world_simpl.
  2: { rewrite drop_app_length. repeat constructor. }
  rewrite lookup_insert_ne by discriminate.
  destruct (globals w !! "genbank_table") as [gt|]; world_simpl.
  2: { rewrite <- ?app_assoc, drop_app_length. repeat constructor. }
  destruct (mkdir_p (parent (Path gt)) (fs w)) as [made|e]; world_simpl.
  2: { rewrite <- ?app_assoc, drop_app_length. repeat constructor; simpl; eauto. }
  destruct (write_text (Path gt) (manifest_text ds) made) as [written|e]; world_simpl;
    rewrite <- ?app_assoc, drop_app_length; repeat constructor; simpl; eauto.
Qed.

(** ** The table writer *)

(** C1: after a table artifact was written to a destination, a second
    write to the same destination with [overwrite=True] succeeds, and what
    is then at the destination is the artifact of the second write alone:
    a directory whose entries are exactly the partition files of the second
    write, from which the rows of the second write are read back, each
    once. This holds whatever the two partition counts are. *)
Theorem C1_second_write_replaces (df1 df2 : DataFrame) dest k1 k2 (fs fs1 : node) :
  Modelled.table_write df1 dest true k1 fs = (None, fs1) ->
  exists fs2 rows,
    Modelled.table_write df2 dest true k2 fs1 = (None, fs2) /\
    stat (Path dest) fs2 = Some (Dir (Modelled.artifact k2 df2)) /\
    (forall name x, Modelled.artifact k2 df2 !! name = Some x <->
                    (name, x) ∈ Modelled.part_files k2 df2) /\
    Modelled.table_read dest fs2 = Ok rows /\
    rows ≡ₚ df2.
Proof.
  intros H1. apply table_write_overwrites in H1.
  destruct (table_write_possible df2 dest k2 fs1) as [fs2 H2].
  { apply path_exists_stat. rewrite H1. eauto. }
  pose proof (table_write_overwrites _ _ _ _ _ H2) as Hs.
  destruct (table_read_artifact _ _ _ _ Hs) as (rows & Hr & Hp).
  exists fs2, rows. repeat split; try assumption.
  - apply elem_of_list_to_map_2.
  - apply elem_of_list_to_map_1, part_files_NoDup.
Qed.

(** Three rows in seven partitions, then one row in two. *)
Lemma C1_second_write_witness :
  exists fs2 rows,
    Modelled.table_write Sample.rows2 Literals.annotations_dir true 2
      (snd (Modelled.table_write Sample.rows1 Literals.annotations_dir true 7 Sample.tree))
      = (None, fs2) /\
    stat (Path Literals.annotations_dir) fs2
    = Some (Dir (Modelled.artifact 2 Sample.rows2)) /\
    (forall name x, Modelled.artifact 2 Sample.rows2 !! name = Some x <->
                    (name, x) ∈ Modelled.part_files 2 Sample.rows2) /\
    Modelled.table_read Literals.annotations_dir fs2 = Ok rows /\
    rows ≡ₚ Sample.rows2.
Proof.
  apply (C1_second_write_replaces Sample.rows1 Sample.rows2 Literals.annotations_dir 7 2
           Sample.tree).
  vm_compute. reflexivity.
Defined.

(** ** The parameters of a run *)

(** A run of [gbk_to_bigslice_app] that succeeds, and the file system it
    leaves, in terms of what the collaborators do. *)
Lemma gbk_succeeds_iff (ax : Axolotl) gt bd ad (w : World) (n' : node) :
  fst (gbk_to_bigslice_app ax gt bd ad w) = Ok tt /\
  fs (snd (gbk_to_bigslice_app ax gt bd ad w)) = n'
  <->
  exists df written cleared features,
    loadSmallFiles2 ax gt "annotation" 5 true (fs w) = Ok df /\
    df_write ax df ad true 5 (fs w) = (None, written) /\
    (if path_exists (Path bd) written
     then rmtree (Path bd) written = (None, cleared)
     else cleared = written) /\
    RawFeatDF_read ax ad cleared = Ok features /\
    BigsliceApp_create ax (str (Path bd)) features "antismash" cleared = (None, n').
Proof.
  unfold gbk_to_bigslice_app, bind, reads, writes, ret, logged.
  rewrite PathFacts.Path_str_Path.
  repeat next_call; world_simpl.
  all: split;
    [ intros [Hr Hf]; try discriminate Hr; subst n';
      do 4 eexists; repeat split; try eassumption;
      try (rewrite Hexists; first [eassumption|reflexivity])
    | intros (df' & wr & cl & ft & E1 & E2 & E3 & E4 & E5);
      try (rewrite Hload in E1); simplify_eq;
      try (rewrite Hwrite in E2; simplify_eq);
      try (rewrite Hexists in E3);
      try (rewrite Hrmtree in E3); simplify_eq;
      try (rewrite Hread in E4; simplify_eq);
      try (rewrite Hcreate in E5; simplify_eq);
      split; reflexivity ].
Qed.

(** C6, as stated, fails: the overwrite flag, the partition count and the
    source type are not parameters of a run. Whatever the three arguments
    of [gbk_to_bigslice_app] and the world, a writer that takes a table only
    without overwriting is refused ([WriteError]), and so is a writer that
    takes any partition count but 5; with a builder that builds for any
    source type but ["antismash"] no run succeeds. (With a writer and a
    builder that take just these, the notebook's call succeeds.) *)
Lemma C6_fixed_arguments_counterexample :
  (forall gt bd ad (w : World),
     fst (gbk_to_bigslice_app
            (Probe.axolotl (fun overwrite _ => negb overwrite) (fun _ => true))
            gt bd ad w) = Err WriteError) /\
  (forall gt bd ad (w : World),
     fst (gbk_to_bigslice_app
            (Probe.axolotl (fun _ num_partitions => negb (Nat.eqb num_partitions 5))
               (fun _ => true))
            gt bd ad w) = Err WriteError) /\
  (forall gt bd ad (w : World),
     fst (gbk_to_bigslice_app
            (Probe.axolotl (fun _ _ => true)
               (fun source_type => negb (String.eqb source_type "antismash")))
            gt bd ad w) <> Ok tt) /\
  fst (gbk_to_bigslice_app
         (Probe.axolotl (fun overwrite num_partitions => overwrite && Nat.eqb num_partitions 5)
            (fun source_type => String.eqb source_type "antismash"))
         Literals.genbank_table Literals.bigslice_app_dir Literals.annotations_dir
         (Sample.kernel Sample.tree true)) = Ok tt.
Proof.
  split; [|split; [|split]].
  - intros gt bd ad w. reflexivity.
  - intros gt bd ad w. reflexivity.
  - intros gt bd ad w.
    unfold gbk_to_bigslice_app, bind, reads, writes, ret, logged, Probe.axolotl.
    cbn [loadSmallFiles2 df_write RawFeatDF_read BigsliceApp_create]. world_simpl.
    destruct (path_exists (Path bd) (fs w)); world_simpl; [|discriminate].
    destruct (rmtree (Path (str (Path bd))) (fs w)) as [[e|] removed]; world_simpl;
      discriminate.
  - vm_compute. reflexivity.
Qed.

(** C6 (amended): of the eight settings, three are parameters of
    [gbk_to_bigslice_app]. A run that succeeds is: the loader run on the
    manifest path as given, for the table type ["annotation"], with 5
    partitions and [skip_malformed_record=True]; the writer run on the rows
    the loader returned, at the table destination as given, with
    [overwrite=True] and 5 partitions; the workspace path, as pathlib reads
    it, tested and, where something is there, removed with all it holds; the
    reader run on the table destination as given; the builder run on the
    rows the reader returned, at the workspace path as pathlib prints it
    ([str(Path(..))], not the string given), for the source type
    ["antismash"]. The overwrite flag, the two partition counts and the
    source type are constants. In the dataset-list cell the root directory
    and the pattern are the literals of the cell, and the manifest goes
    where the kernel's [genbank_table] says: a run of the cell that succeeds
    is the glob of the literal pattern under the literal root, the [mkdir]
    of the directory of that path and the write of the paths found to it.
    (The workspace and the manifest at settled paths, so that the tree is
    right about the files they name.) *)
Theorem C6_parameters_and_constants (ax : Axolotl) gt bd ad (w : World) :
  settled (Path bd) = true ->
  fst (gbk_to_bigslice_app ax gt bd ad w) = Ok tt ->
  (exists df written cleared features,
     loadSmallFiles2 ax gt "annotation" 5 true (fs w) = Ok df /\
     df_write ax df ad true 5 (fs w) = (None, written) /\
     (if path_exists (Path bd) written
      then rmtree (Path bd) written = (None, cleared)
      else cleared = written) /\
     RawFeatDF_read ax ad cleared = Ok features /\
     BigsliceApp_create ax (str (Path bd)) features "antismash" cleared
     = (None, fs (snd (gbk_to_bigslice_app ax gt bd ad w)))) /\
  (forall (w0 : World) g,
     globals w0 !! "genbank_table" = Some g ->
     settled (Path g) = true ->
     fst (cell_fa8c0646 w0) = Ok tt ->
     exists datasets made,
       glob (Path "/home/matinnu/datadrive/vol_atlas_server/datasets/")
            "*/antismash/*region*.gbk" (fs w0) = Ok datasets /\
       mkdir_p (parent (Path g)) (fs w0) = Ok made /\
       write_text (Path g) (manifest_text datasets) made = Ok (fs (snd (cell_fa8c0646 w0)))).
Proof.
  intros _ Hok. split.
  - apply gbk_succeeds_iff. split; [exact Hok|reflexivity].
  - intros w0 g Hg _ Hcell.
    assert (Hrun : write_dataset_list Literals.dataset_path Literals.pattern w0
                   = (fst (cell_fa8c0646 w0), snd (cell_fa8c0646 w0))).
    { unfold cell_fa8c0646.
      destruct (write_dataset_list Literals.dataset_path Literals.pattern w0); reflexivity. }
    pose proof (write_dataset_list_run Literals.dataset_path Literals.pattern w0 g Hg
                  _ _ Hrun) as H.
    change (glob (Path "/home/matinnu/datadrive/vol_atlas_server/datasets/")
              "*/antismash/*region*.gbk" (fs w0))
      with (glob (Path Literals.dataset_path) Literals.pattern (fs w0)).
    destruct (glob (Path Literals.dataset_path) Literals.pattern (fs w0)) as [ds|e];
      [|destruct H as [Hr _]; congruence].
    destruct (mkdir_p (parent (Path g)) (fs w0)) as [made|e];
      [|destruct H as [Hr _]; congruence].
    destruct (write_text (Path g) (manifest_text ds) made) as [written|e] eqn:Hwr;
      [|destruct H as [Hr _]; congruence].
    destruct H as [_ ->]. exists ds, made. auto.
Qed.

(** The call of the notebook, on the sample, after the dataset-list cell. *)
Lemma C6_notebook_call_witness :
  (exists df written cleared features,
     loadSmallFiles2 Sample.ax Literals.genbank_table "annotation" 5 true
       (fs (snd (cell_fa8c0646 (Sample.kernel Sample.tree true)))) = Ok df /\
     df_write Sample.ax df Literals.annotations_dir true 5
       (fs (snd (cell_fa8c0646 (Sample.kernel Sample.tree true)))) = (None, written) /\
     (if path_exists (Path Literals.bigslice_app_dir) written
      then rmtree (Path Literals.bigslice_app_dir) written = (None, cleared)
      else cleared = written) /\
     RawFeatDF_read Sample.ax Literals.annotations_dir cleared = Ok features /\
     BigsliceApp_create Sample.ax (str (Path Literals.bigslice_app_dir)) features
       "antismash" cleared
     = (None, fs (snd (gbk_to_bigslice_app Sample.ax Literals.genbank_table
                         Literals.bigslice_app_dir Literals.annotations_dir
                         (snd (cell_fa8c0646 (Sample.kernel Sample.tree true))))))) /\
  (forall (w0 : World) g,
     globals w0 !! "genbank_table" = Some g ->
     settled (Path g) = true ->
     fst (cell_fa8c0646 w0) = Ok tt ->
     exists datasets made,
       glob (Path "/home/matinnu/datadrive/vol_atlas_server/datasets/")
            "*/antismash/*region*.gbk" (fs w0) = Ok datasets /\
       mkdir_p (parent (Path g)) (fs w0) = Ok made /\
       write_text (Path g) (manifest_text datasets) made = Ok (fs (snd (cell_fa8c0646 w0)))).
Proof.
  apply (C6_parameters_and_constants Sample.ax Literals.genbank_table
           Literals.bigslice_app_dir Literals.annotations_dir
           (snd (cell_fa8c0646 (Sample.kernel Sample.tree true)))).
  - vm_compute. reflexivity.
  - vm_compute. reflexivity.
Defined.

(** ** The record loader *)

Module LoaderFacts.
Import Modelled.


End LoaderFacts.

(** A fresh kernel does not know [genbank_table], which only the later
    cell 04d4a557 binds: run in the order of the notebook, the dataset-list
    cell raises [NameError] after the glob, and nothing is written. *)
Example fresh_kernel_raises_NameError :
  fst (notebook_staging Sample.ax (Sample.kernel Sample.tree false))
  = Err (NameError "genbank_table") /\
  fs (snd (notebook_staging Sample.ax (Sample.kernel Sample.tree false))) = Sample.tree /\
  map (fun e => what e)
      (trace (snd (notebook_staging Sample.ax (Sample.kernel Sample.tree false))))
  = [Glob (Path Literals.dataset_path) Literals.pattern; Name "genbank_table"].
Proof. repeat split; vm_compute; reflexivity. Qed.

(** ** The staging run *)

(** One step of a staging run: the next call or lookup is replaced by each
    of its possible outcomes. *)
Ltac next_staging_call :=
  world_simpl; rewrite ?lookup_insert_ne by discriminate;
  match goal with
  | |- context [glob ?r ?p ?n] =>
      destruct (glob r p n) as [?datasets|?e] eqn:?Hglob
  | |- context [globals ?w !! "genbank_table"] =>
      destruct (globals w !! "genbank_table") as [?g|] eqn:?Hname
  | |- context [mkdir_p ?p ?n] =>
      destruct (mkdir_p p n) as [?made|?e] eqn:?Hmkdir
  | |- context [write_text ?p ?t ?n] =>
      destruct (write_text p t n) as [?manifest|?e] eqn:?Hopen
  | |- context [environ ?w !! "CONDA_PREFIX"] =>
      destruct (environ w !! "CONDA_PREFIX") as [?prefix|] eqn:?Henv
  | _ => next_call
  end.

Ltac staging_run :=
  unfold staging, write_dataset_list, load_into_app, gbk_to_bigslice_app,
    getenv_path, name, assign, updates, bind, reads, writes, ret, logged, since;
  repeat next_staging_call; world_simpl;
  rewrite <- ?app_assoc, ?drop_app_length; cbn [app].

(** The protocol of a staging run, whatever the collaborators do: the
    calls follow the plan and stop where it ends or where one raises; the
    exception of the run is the one the last call raised; every call starts
    from the file system the previous one left, and the run leaves the file
    system as its last call left it. *)
Lemma staging_protocol (ax : Axolotl) dp pat gt bd ad (w : World) :
  (exists present,
     map (fun e => step_of (what e)) (since w (snd (staging ax dp pat gt bd ad w)))
       `prefix_of` plan present /\
     (fst (staging ax dp pat gt bd ad w) = Ok tt ->
      map (fun e => step_of (what e)) (since w (snd (staging ax dp pat gt bd ad w)))
      = plan present)) /\
  ended_by (since w (snd (staging ax dp pat gt bd ad w)))
           (fst (staging ax dp pat gt bd ad w)) /\
  linked (fs w) (since w (snd (staging ax dp pat gt bd ad w))) /\
  fs (snd (staging ax dp pat gt bd ad w))
  = left_by (fs w) (since w (snd (staging ax dp pat gt bd ad w))).
Proof.
  staging_run.
  all: split;
    [solve [ exists true; split; [eexists; reflexivity|first [discriminate|reflexivity]]
           | exists false; split; [eexists; reflexivity|first [discriminate|reflexivity]] ]
    |].
  all: split;
    [split; cbn [List.removelast last];
     solve [repeat constructor | eexists; split; reflexivity]|].
  all: split; [cbn; tauto|reflexivity].
Qed.

(** What the later calls of a run leave alone, call by call. *)
Ltac frames :=
  repeat match goal with
  | H : BigsliceApp_create _ _ _ _ ?n = (_, ?n') |- context [stat ?q ?n'] =>
      rewrite (app_create_frame _ _ _ _ _ _ _ q H)
        by (rewrite ?PathFacts.Path_str_Path; assumption)
  | H : rmtree _ ?n = (_, ?n') |- context [stat ?q ?n'] =>
      rewrite (rmtree_frame _ _ _ _ q H)
        by (rewrite ?PathFacts.Path_str_Path; assumption)
  | H : df_write _ _ _ _ _ ?n = (_, ?n') |- context [stat ?q ?n'] =>
      rewrite (table_write_frame _ _ _ _ _ _ _ q H) by assumption
  end.

(** With the collaborators of the specification, and the manifest, the
    table and the workspace at paths apart from each other, what a run has
    written stays: the manifest once written and the table once written are
    in the file system the run leaves, however the run ends. *)
Lemma staging_keeps_artifacts parse layout dp pat gt bd ad (w : World) g ds :
  globals w !! "genbank_table" = Some g ->
  glob (Path dp) pat (fs w) = Ok ds ->
  apart (Path bd) (Path g) = true ->
  apart (Path ad) (Path g) = true ->
  apart (Path bd) (Path ad) = true ->
  Forall (fun e =>
            raised e = None ->
            match what e with
            | OpenW _ =>
                stat (Path g)
                  (fs (snd (staging (Modelled.axolotl parse layout) dp pat gt bd ad w)))
                = Some (File (manifest_text ds))
            | DfWrite df _ _ _ =>
                stat (Path ad)
                  (fs (snd (staging (Modelled.axolotl parse layout) dp pat gt bd ad w)))
                = Some (Dir (Modelled.artifact 5 df))
            | _ => True
            end)
         (since w (snd (staging (Modelled.axolotl parse layout) dp pat gt bd ad w))).
Proof.
  intros Hg Hds Hbg Hag Hba. revert Hg Hds.
  staging_run; intros Hg Hds; try discriminate;
    injection Hg as <-; injection Hds as <-;
    repeat constructor; world_simpl; try (intros _; exact I);
    intros Hr; try discriminate Hr; clear Hr.
  all: frames;
    first [ eapply write_text_stat; eassumption
          | eapply table_write_overwrites; eassumption ].
Qed.

(** C3, as stated, fails: with the workspace path above the manifest and
    the table ([../data] for the notebook's [../data/datasets.txt] and
    [../data/interim/annotations]), the run writes both, removes the
    workspace and them with it, and then fails to read the table: the run
    ends in an exception and neither the manifest nor the table is on disk. *)
Lemma C3_workspace_above_artifacts_counterexample :
  fst (Sample.staging_with "../data" (Sample.kernel Sample.tree true))
  = Err NotFoundError /\
  map (fun e => (step_of (what e), raised e))
      (since (Sample.kernel Sample.tree true)
         (snd (Sample.staging_with "../data" (Sample.kernel Sample.tree true))))
  = [ (Discover, None); (WriteManifest, None); (WriteManifest, None);
      (WriteManifest, None); (Setup, None); (LoadRecords, None); (WriteTable, None);
      (ResetWorkspace, None); (ResetWorkspace, None);
      (ConstructApp, Some NotFoundError) ] /\
  path_exists (Path Literals.genbank_table)
    (fs (snd (Sample.staging_with "../data" (Sample.kernel Sample.tree true)))) = false /\
  path_exists (Path Literals.annotations_dir)
    (fs (snd (Sample.staging_with "../data" (Sample.kernel Sample.tree true)))) = false.
Proof. repeat split; vm_compute; reflexivity. Qed.

(** C3 (amended): the calls of a staging run follow the order discover,
    write manifest, (set-up,) load, write table, reset workspace, construct
    application, and stop at the first call that raises; the run ends with
    exactly that exception; nothing is undone: every call starts from the
    file system the previous call left, and the run leaves the file system
    as its last call left it. This holds whatever the collaborators do. The
    manifest and the table written before a failure are still on disk
    afterwards when the manifest, the table and the workspace are at
    settled paths of the same base (so that the tree is right about the
    files they name) and apart from each other, with the collaborators of
    the specification, which write below their own destination only (and
    with the pattern of the notebook, under a root at a settled path, for
    what the manifest holds). *)
Theorem C3_order_abort_no_rollback (ax : Axolotl) dp pat gt bd ad (w : World) :
  (exists present,
     map (fun e => step_of (what e)) (since w (snd (staging ax dp pat gt bd ad w)))
       `prefix_of` plan present /\
     (fst (staging ax dp pat gt bd ad w) = Ok tt ->
      map (fun e => step_of (what e)) (since w (snd (staging ax dp pat gt bd ad w)))
      = plan present)) /\
  ended_by (since w (snd (staging ax dp pat gt bd ad w)))
           (fst (staging ax dp pat gt bd ad w)) /\
  linked (fs w) (since w (snd (staging ax dp pat gt bd ad w))) /\
  fs (snd (staging ax dp pat gt bd ad w))
  = left_by (fs w) (since w (snd (staging ax dp pat gt bd ad w))) /\
  (forall parse layout g ds,
     ax = Modelled.axolotl parse layout ->
     globals w !! "genbank_table" = Some g ->
     pat = Literals.pattern -> settled (Path dp) = true ->
     glob (Path dp) pat (fs w) = Ok ds ->
     settled (Path g) = true -> settled (Path bd) = true -> settled (Path ad) = true ->
     same_base (Path g) (Path bd) = true -> same_base (Path g) (Path ad) = true ->
     apart (Path bd) (Path g) = true ->
     apart (Path ad) (Path g) = true ->
     apart (Path bd) (Path ad) = true ->
     Forall (fun e =>
               raised e = None ->
               match what e with
               | OpenW _ =>
                   stat (Path g) (fs (snd (staging ax dp pat gt bd ad w)))
                   = Some (File (manifest_text ds))
               | DfWrite df _ _ _ =>
                   stat (Path ad) (fs (snd (staging ax dp pat gt bd ad w)))
                   = Some (Dir (Modelled.artifact 5 df))
               | _ => True
               end)
            (since w (snd (staging ax dp pat gt bd ad w)))).
Proof.
  destruct (staging_protocol ax dp pat gt bd ad w) as (H1 & H2 & H3 & H4).
  repeat (split; [assumption|]).
  intros parse layout g ds -> Hg _ _ Hds _ _ _ _ _. apply staging_keeps_artifacts; assumption.
Qed.

(** The notebook's own paths, with a file where the workspace should be:
    the run fails at the removal of the workspace, and the manifest and
    the table it wrote are on disk. *)
Lemma C3_artifacts_remain_witness :
  fst (Sample.staging_with Literals.bigslice_app_dir (Sample.kernel Sample.blocked_tree true))
  = Err NotADirectoryError /\
  Forall (fun e =>
            raised e = None ->
            match what e with
            | OpenW _ =>
                stat (Path Literals.genbank_table)
                  (fs (snd (Sample.staging_with Literals.bigslice_app_dir
                              (Sample.kernel Sample.blocked_tree true))))
                = Some (File (manifest_text
                                (map (fun name => Path Literals.dataset_path ++ Path name)
                                     ["g1/antismash/c1.region001.gbk";
                                      "g1/antismash/c1.region002.gbk";
                                      "g2/antismash/c7.region001.gbk"])))
            | DfWrite df _ _ _ =>
                stat (Path Literals.annotations_dir)
                  (fs (snd (Sample.staging_with Literals.bigslice_app_dir
                              (Sample.kernel Sample.blocked_tree true))))
                = Some (Dir (Modelled.artifact 5 df))
            | _ => True
            end)
         (since (Sample.kernel Sample.blocked_tree true)
            (snd (Sample.staging_with Literals.bigslice_app_dir
                    (Sample.kernel Sample.blocked_tree true)))).
Proof.
  split; [vm_compute; reflexivity|].
  apply (proj2 (proj2 (proj2 (proj2
           (C3_order_abort_no_rollback Sample.ax Literals.dataset_path Literals.pattern
              Literals.genbank_table Literals.bigslice_app_dir Literals.annotations_dir
              (Sample.kernel Sample.blocked_tree true)))))
           Sample.parse Sample.layout Literals.genbank_table).
  all: vm_compute; reflexivity.
Defined.

(** ** Running the staging twice *)

Module RerunFacts.
Import Text TextFacts PathFacts FSFacts FrameFacts TableFacts AgainFacts LoaderFacts
  GlobFacts Modelled.

Lemma mem_app c (a b : string) : mem c (a +:+ b) = mem c a || mem c b.
Proof.
  induction a as [|x a IH]; [reflexivity|].
  rewrite app_cons. simpl. rewrite IH, orb_assoc. reflexivity.
Qed.

Lemma mem_concat c sep (l : list string) :
  mem c sep = false -> Forall (fun w => mem c w = false) l ->
  mem c (String.concat sep l) = false.
Proof.
  intros Hsep. induction 1 as [|w l Hw Hl IH]; [reflexivity|].
  destruct l as [|w' l]; [exact Hw|].
  change (String.concat sep (w :: w' :: l)) with (w +:+ sep +:+ String.concat sep (w' :: l)).
  rewrite !mem_app, Hw, Hsep, IH. reflexivity.
Qed.

Lemma plain_spec c :
  plain c = true -> clean c /\ mem newline c = false.
Proof.
  unfold plain, clean. intros H.
  apply andb_true_iff in H as [H H3]. apply andb_true_iff in H as [H1 H2].
  apply negb_true_iff in H2, H3. auto.
Qed.

(** A path of plain names prints to one line, and parses back to itself. *)
Lemma plain_path d :
  forallb plain (names d) = true ->
  mem newline (str d) = false /\ Path (str d) = d.
Proof.
  intros H.
  assert (Hc : Forall clean (names d) /\ Forall (fun w => mem newline w = false) (names d)).
  { rewrite forallb_forall in H. split; apply Forall_forall; intros c Hc;
      apply list_elem_of_In, H, plain_spec in Hc; tauto. }
  destruct Hc as [Hc Hn]. destruct d as [|a rest]; [split; reflexivity|].
  unfold names in *. unfold str.
  destruct (String.eqb_spec a "/") as [->|Ha].
  - split.
    + change ("/" +:+ String.concat "/" rest)
        with (String "/" (String.concat "/" rest)).
      simpl. apply mem_concat; [reflexivity|exact Hn].
    + apply Path_str_absolute, Hc.
  - split.
    + apply mem_concat; [reflexivity|exact Hn].
    + pose proof (Path_str_relative (a :: rest) Hc) as E. unfold str in E.
      destruct (String.eqb_spec a "/"); [congruence|exact E].
Qed.

(** The lines of the manifest, parsed, are the paths discovered. *)
Lemma manifest_paths (ds : list path) :
  forallb (fun d => forallb plain (names d)) ds = true ->
  lines (manifest_text ds) = map str ds /\ map Path (map str ds) = ds.
Proof.
  intros H. rewrite forallb_forall in H. split.
  - apply ManifestFacts.manifest_lines. apply Forall_forall. intros d Hd.
    apply list_elem_of_In, H, plain_path in Hd. tauto.
  - rewrite map_map. rewrite <- (map_id ds) at 2. apply map_ext_in.
    intros d Hd. apply H, plain_path in Hd. tauto.
Qed.





End RerunFacts.



Module StagingFacts.
Import Text TextFacts PathFacts FSFacts FrameFacts TableFacts AgainFacts LoaderFacts
  GlobFacts RerunFacts Modelled.




Section Conditions.

Variable parse : string -> option (list string).
Variable layout : DataFrame -> string -> gmap string node.
Variables dp pat gt bd ad : string.

Let ax := axolotl parse layout.
Let root := Path dp.

Hypothesis outside_gt : is_prefix root (Path gt) = false.
Hypothesis outside_ad : apart root (Path ad) = true.
Hypothesis outside_bd : apart root (Path bd) = true.
Hypothesis apart_gt_ad : apart (Path gt) (Path ad) = true.
Hypothesis apart_gt_bd : apart (Path gt) (Path bd) = true.
Hypothesis apart_ad_bd : apart (Path ad) (Path bd) = true.



End Conditions.

End StagingFacts.




(** * Further properties of the notebook *)

Import TextFacts FSFacts FrameFacts AgainFacts GlobFacts ManifestFacts RerunFacts.

(** ** Files and directories as the cells use them *)

Module CellFacts.

(** [glob] on a relative pattern with parts. *)
Lemma glob_relative c s seg segs root n :
  Ascii.eqb c Text.slash = false -> Path (String c s) = seg :: segs ->
  glob root (String c s) n
  = match stat root n with
    | Some (Dir es) => Ok (select_from (seg :: segs) root (Dir es))
    | _ => Ok []
    end.
Proof. intros Hc Hp. unfold glob. rewrite Hc, Hp. reflexivity. Qed.

Lemma pattern_parts : Path Literals.pattern = ["*"; "antismash"; "*region*.gbk"].
Proof. vm_compute. reflexivity. Qed.

(** The pattern of the notebook is one [glob] accepts. *)
Lemma glob_literal root n :
  glob root Literals.pattern n
  = match stat root n with
    | Some (Dir es) => Ok (select_from ["*"; "antismash"; "*region*.gbk"] root (Dir es))
    | _ => Ok []
    end.
Proof.
  exact (glob_relative "*" "/antismash/*region*.gbk" "*" ["antismash"; "*region*.gbk"]
           root n eq_refl pattern_parts).
Qed.

Lemma glob_literal_ok root n : exists ds, glob root Literals.pattern n = Ok ds.
Proof. rewrite glob_literal. destruct (stat root n) as [[| |]|]; eauto. Qed.

(** In an empty directory every [mkdir(parents=True)] succeeds. *)
Lemma mkdir_p_empty p : exists n', mkdir_p p (Dir ∅) = Ok n'.
Proof.
  induction p as [|c p IH]; [eexists; reflexivity|].
  destruct IH as [n' IH]. cbn [mkdir_p]. rewrite lookup_empty.
  cbv beta iota delta [default id]. rewrite IH. eauto.
Qed.

(** [mkdir(parents=True, exist_ok=True)] succeeds exactly when nothing on
    the way is something else than a directory. *)
Lemma mkdir_p_possible p n :
  (exists n', mkdir_p p n = Ok n') <->
  (forall q x, is_prefix q p = true -> stat q n = Some x -> is_dir x = true).
Proof.
  revert n. induction p as [|c p IH]; intros n.
  - split.
    + intros [n' H] [|d q] x Hq Hs; [|discriminate Hq].
      injection Hs as <-. destruct n; try discriminate H; reflexivity.
    + intros H. specialize (H [] n eq_refl eq_refl).
      destruct n; try discriminate H. eexists; reflexivity.
  - destruct n as [t|rows|es].
    + split; [intros [n' H]; discriminate H|].
      intros H. specialize (H [] _ eq_refl eq_refl). discriminate H.
    + split; [intros [n' H]; discriminate H|].
      intros H. specialize (H [] _ eq_refl eq_refl). discriminate H.
    + cbn [mkdir_p]. split.
      * intros [n' H] [|d q] x Hq Hs; [injection Hs as <-; reflexivity|].
        cbn [is_prefix] in Hq. apply andb_true_iff in Hq as [Hd Hq].
        apply String.eqb_eq in Hd. subst d. cbn [stat] in Hs.
        destruct (es !! c) as [child|] eqn:Hc; [|discriminate Hs].
        cbv beta iota delta [default id] in H. cbn in Hs.
        destruct (mkdir_p p child) as [m|e] eqn:Hm; [|discriminate H].
        exact (proj1 (IH child) (ex_intro _ m Hm) q x Hq Hs).
      * intros H.
        destruct (es !! c) as [child|] eqn:Hc; cbv beta iota delta [default id].
        -- destruct (proj2 (IH child)) as [m Hm].
           { intros q x Hq Hs. apply (H (c :: q) x).
             - cbn [is_prefix]. rewrite String.eqb_refl. exact Hq.
             - cbn [stat]. rewrite Hc. exact Hs. }
           rewrite Hm. eauto.
        -- destruct (mkdir_p_empty p) as [m Hm]. rewrite Hm. eauto.
Qed.

(** With its directory in place, a file can be written unless its path
    names a directory. *)
Lemma write_text_on_dir p t n :
  path_is_dir p n = true -> write_text p t n = Err IsADirectoryError.
Proof.
  revert n. induction p as [|c p IH]; intros n H.
  - unfold path_is_dir in H. cbn in H. destruct n; try discriminate H. reflexivity.
  - unfold path_is_dir in H. cbn [stat] in H.
    destruct n as [| |es]; try discriminate H.
    cbn [write_text]. destruct (es !! c) as [child|] eqn:Hc; [|discriminate H].
    cbn in H. rewrite (IH child); [reflexivity|]. unfold path_is_dir. exact H.
Qed.

(** A directory lies in a directory. *)
Lemma parent_dir_of_dir p n : path_is_dir p n = true -> path_is_dir (parent p) n = true.
Proof.
  intros H. destruct (decide (parent p = p)) as [->|Hne]; [exact H|].
  apply parent_of_existing; [|exact Hne].
  apply path_is_dir_stat in H as [es ->]. eauto.
Qed.

Lemma is_prefix_length p q : is_prefix p q = true -> length p <= length q.
Proof.
  revert q. induction p as [|c p IH]; intros [|d q] H; cbn in *; try lia; try discriminate.
  apply andb_true_iff in H as [_ H]. apply IH in H. lia.
Qed.

Lemma removelast_length (l : list string) x :
  length (List.removelast (x :: l)) = length l.
Proof.
  revert x. induction l as [|y l IH]; intros x; [reflexivity|].
  change (List.removelast (x :: y :: l)) with (x :: List.removelast (y :: l)).
  cbn [length]. rewrite IH. reflexivity.
Qed.

(** A path with a name does not lie above its parent. *)
Lemma parent_not_below p : p <> [] -> p <> ["/"] -> is_prefix p (parent p) = false.
Proof.
  intros H0 H1. destruct (is_prefix p (parent p)) eqn:E; [|reflexivity].
  apply is_prefix_length in E. exfalso.
  destruct p as [|a [|b p]]; [congruence| |].
  - cbn in E. destruct (String.eqb a "/") eqn:Ea; [|cbn in E; lia].
    apply String.eqb_eq in Ea. congruence.
  - change (parent (a :: b :: p)) with (List.removelast (a :: b :: p)) in E.
    rewrite removelast_length in E. cbn [length] in E. lia.
Qed.

(** The cell binds [dataset_path] and no other name. *)
Lemma cell_globals dataset_path pattern (w : World) :
  globals (snd (write_dataset_list dataset_path pattern w))
  = <["dataset_path" := dataset_path]> (globals w).
Proof.
  unfold write_dataset_list, bind, assign, reads, name, reads, updates, writes, logged.
  world_simpl.
  destruct (glob (Path dataset_path) pattern (fs w)) as [ds|e]; world_simpl; [|reflexivity].
  rewrite lookup_insert_ne by discriminate.
  destruct (globals w !! "genbank_table") as [gt|]; world_simpl; [|reflexivity].
  destruct (mkdir_p (parent (Path gt)) (fs w)) as [made|e]; world_simpl; [|reflexivity].
  destruct (write_text (Path gt) (manifest_text ds) made) as [written|e]; reflexivity.
Qed.

(** The cell when the kernel knows [genbank_table], for the notebook's
    pattern, which [glob] accepts. *)
Lemma cell_run (w : World) gt :
  globals w !! "genbank_table" = Some gt ->
  exists ds, glob (Path Literals.dataset_path) Literals.pattern (fs w) = Ok ds /\
  match mkdir_p (parent (Path gt)) (fs w) with
  | Err e => fst (cell_fa8c0646 w) = Err e /\ fs (snd (cell_fa8c0646 w)) = fs w
  | Ok made =>
      match write_text (Path gt) (manifest_text ds) made with
      | Err e => fst (cell_fa8c0646 w) = Err e /\ fs (snd (cell_fa8c0646 w)) = made
      | Ok written => fst (cell_fa8c0646 w) = Ok tt /\ fs (snd (cell_fa8c0646 w)) = written
      end
  end.
Proof.
  intros Hgt. destruct (glob_literal_ok (Path Literals.dataset_path) (fs w)) as [ds Hds].
  exists ds. split; [exact Hds|].
  pose proof (write_dataset_list_run Literals.dataset_path Literals.pattern w gt Hgt
                (fst (cell_fa8c0646 w)) (snd (cell_fa8c0646 w))) as H.
  rewrite Hds in H. apply H. unfold cell_fa8c0646.
  destruct (write_dataset_list Literals.dataset_path Literals.pattern w); reflexivity.
Qed.

(** Without the name, the cell writes nothing. *)
Lemma unbound_name_writes_nothing (w : World) :
  globals w !! "genbank_table" = None -> fs (snd (cell_fa8c0646 w)) = fs w.
Proof.
  intros Hgt.
  destruct (glob_literal_ok (Path Literals.dataset_path) (fs w)) as [ds Hds].
  unfold cell_fa8c0646, write_dataset_list, bind, assign, reads,
    name, reads, updates, writes, logged.
  world_simpl. rewrite Hds. world_simpl.
  rewrite lookup_insert_ne by discriminate. rewrite Hgt. reflexivity.
Qed.

(** What is not on the way to the manifest is as it was after the cell. *)
Lemma cell_frame (w : World) gt (q : path) :
  globals w !! "genbank_table" = Some gt -> is_prefix q (Path gt) = false ->
  stat q (fs (snd (cell_fa8c0646 w))) = stat q (fs w).
Proof.
  intros Hgt Hq. destruct (cell_run w gt Hgt) as (ds & _ & Hrun).
  assert (Hq' : is_prefix q (parent (Path gt)) = false).
  { destruct (is_prefix q (parent (Path gt))) eqn:E; [|reflexivity].
    rewrite (is_prefix_trans _ _ _ E (parent_is_prefix (Path gt))) in Hq.
    discriminate Hq. }
  destruct (mkdir_p (parent (Path gt)) (fs w)) as [made|e] eqn:Hmk.
  - destruct (write_text (Path gt) (manifest_text ds) made) as [written|e] eqn:Hwr;
      destruct Hrun as [_ ->].
    + rewrite (stat_write_text_other _ _ _ _ _ Hwr Hq).
      exact (stat_mkdir_p_other _ _ _ _ Hmk Hq').
    + exact (stat_mkdir_p_other _ _ _ _ Hmk Hq').
  - destruct Hrun as [_ ->]. reflexivity.
Qed.

(** The errors [mkdir] and [open] can raise. *)
Lemma mkdir_p_errors p n e :
  mkdir_p p n = Err e -> e = FileExistsError \/ e = NotADirectoryError.
Proof.
  revert n. induction p as [|c p IH]; intros n H.
  - destruct n; cbn in H; try discriminate H; injection H as <-; auto.
  - destruct n as [| |es]; cbn [mkdir_p] in H; try (injection H as <-; auto).
    destruct (mkdir_p p (default (Dir ∅) (es !! c))) as [m|e'] eqn:Hm; [discriminate H|].
    injection H as <-. eapply IH. exact Hm.
Qed.

Lemma write_text_errors p t n e :
  write_text p t n = Err e ->
  e = IsADirectoryError \/ e = FileNotFoundError \/ e = NotADirectoryError.
Proof.
  revert n. induction p as [|c p IH]; intros n H.
  - destruct n; cbn in H; try discriminate H; injection H as <-; auto.
  - destruct n as [| |es]; cbn [write_text] in H; try (injection H as <-; auto).
    destruct (es !! c) as [child|].
    + destruct (write_text p t child) as [m|e'] eqn:Hm; [discriminate H|].
      injection H as <-. eapply IH. exact Hm.
    + destruct p; [discriminate H|]. injection H as <-. auto.
Qed.

End CellFacts.

Import CellFacts.

(** ** More on the Spark session *)

Module SessionFacts.

(** A successful [start_new_spark_session], step by step. *)
Lemma session_run master_ip app_name log_dir cores memory partitions (w w' : World)
    session sc :
  start_new_spark_session master_ip app_name log_dir cores memory partitions w
  = (Ok (session, sc), w') ->
  mkdir_p (Path log_dir) (fs w) = Ok (fs w') /\
  Spark.conf session
  = session_options master_ip app_name (Path log_dir) cores memory partitions /\
  Spark.active (spark w') = Some session /\
  Spark.cid session
  = match Spark.active (spark w) with
    | Some _ => Spark.started (spark w)
    | None => S (Spark.started (spark w))
    end /\
  Spark.started (spark w') = S (Spark.cid session).
Proof.
  unfold start_new_spark_session, bind, on_spark, updates, writes, logged, ret.
  destruct w as [n g env [act started] tr].
  unfold Spark.getOrCreate at 1. world_simpl.
  destruct act as [c|]; world_simpl;
    unfold Spark.stop, Spark.getOrCreate; world_simpl; rewrite Nat.eqb_refl; world_simpl;
    (destruct (mkdir_p (Path log_dir) n) as [made|e]; world_simpl; [|discriminate]);
    intros H; injection H as <- <- <-; world_simpl; repeat split; reflexivity.
Qed.

(** The context returned is that of the session returned. *)
Lemma session_returns master_ip app_name log_dir cores memory partitions (w w' : World)
    session sc :
  start_new_spark_session master_ip app_name log_dir cores memory partitions w
  = (Ok (session, sc), w') ->
  sc = session.
Proof.
  unfold start_new_spark_session, bind, on_spark, updates, writes, logged, ret.
  destruct w as [n g env [act started] tr].
  unfold Spark.getOrCreate at 1. world_simpl.
  destruct act as [c|]; world_simpl;
    unfold Spark.stop, Spark.getOrCreate; world_simpl; rewrite Nat.eqb_refl; world_simpl;
    (destruct (mkdir_p (Path log_dir) n) as [made|e]; world_simpl; [|discriminate]);
    intros H; injection H as <- <- <-; reflexivity.
Qed.

(** The outcome of [start_new_spark_session] is that of its [mkdir]. *)
Lemma session_by_mkdir master_ip app_name log_dir cores memory partitions (w : World) :
  match mkdir_p (Path log_dir) (fs w) with
  | Ok made =>
      exists session w',
        start_new_spark_session master_ip app_name log_dir cores memory partitions w
        = (Ok (session, session), w') /\ fs w' = made
  | Err e =>
      exists w',
        start_new_spark_session master_ip app_name log_dir cores memory partitions w
        = (Err e, w') /\ Spark.active (spark w') = None
  end.
Proof.
  unfold start_new_spark_session, bind, on_spark, updates, writes, logged, ret.
  destruct w as [n g env [act started] tr].
  unfold Spark.getOrCreate at 1. world_simpl.
  destruct act as [c|]; world_simpl;
    unfold Spark.stop, Spark.getOrCreate; world_simpl; rewrite Nat.eqb_refl; world_simpl;
    destruct (mkdir_p (Path log_dir) n) as [made|e]; world_simpl;
    repeat eexists.
Qed.

End SessionFacts.

Import SessionFacts.

(** X1: when [start_new_spark_session] returns, the directory the session
    is told to log its events to ([spark.eventLog.dir]) is a directory of
    the file system: the function has made it, under the name it gives the
    session, before it builds the session. *)
Theorem session_event_log_dir master_ip app_name log_dir cores memory partitions
    (w w' : World) session sc :
  start_new_spark_session master_ip app_name log_dir cores memory partitions w
  = (Ok (session, sc), w') ->
  (exists dir, ("spark.eventLog.dir", dir) ∈ Spark.conf session) /\
  (forall dir, ("spark.eventLog.dir", dir) ∈ Spark.conf session ->
               path_is_dir (Path dir) (fs w') = true).
Proof.
  intros Hrun. apply session_run in Hrun. destruct Hrun as (Hmk & Hconf & _).
  rewrite Hconf. unfold session_options. split.
  - eexists. do 8 apply list_elem_of_further. apply list_elem_of_here.
  - intros dir Hin.
    repeat (apply elem_of_cons in Hin; destruct Hin as [Hin|Hin];
            [try discriminate Hin|]).
    + injection Hin as ->. rewrite PathFacts.Path_str_Path.
      eapply mkdir_p_is_dir; eassumption.
    + apply elem_of_nil in Hin. destruct Hin.
Qed.

(** The session cell of the notebook, on a fresh kernel: the session is
    the second context of the process, the first being the one made to be
    stopped. *)
Lemma session_event_log_dir_witness :
  (exists dir,
     ("spark.eventLog.dir", dir)
     ∈ Spark.conf {| Spark.cid := 1;
                     Spark.conf := session_options "local[*]" "bigslice" (Path "../logs")
                                     2 "2g" 5 |}) /\
  (forall dir,
     ("spark.eventLog.dir", dir)
     ∈ Spark.conf {| Spark.cid := 1;
                     Spark.conf := session_options "local[*]" "bigslice" (Path "../logs")
                                     2 "2g" 5 |} ->
     path_is_dir (Path dir) (fs (snd (cell_a8f9e073 (Sample.kernel Sample.tree false)))) = true).
Proof.
  apply (session_event_log_dir "local[*]" "bigslice" "../logs" 2 "2g" 5
           (Sample.kernel Sample.tree false)
           (snd (cell_a8f9e073 (Sample.kernel Sample.tree false)))
           {| Spark.cid := 1;
              Spark.conf := session_options "local[*]" "bigslice" (Path "../logs") 2 "2g" 5 |}
           {| Spark.cid := 1;
              Spark.conf := session_options "local[*]" "bigslice" (Path "../logs") 2 "2g" 5 |}).
  vm_compute. reflexivity.
Defined.

(** X2: a session is never handed out twice. When a call of
    [start_new_spark_session] has returned a session and the next call
    returns one too, whatever its arguments, the second session is another
    one than the first, it is the active one, with the options of the second
    call, and the context returned with it is its own. *)
Theorem session_rerun master_ip app_name log_dir cores memory partitions
    master_ip' app_name' log_dir' cores' memory' partitions' (w w1 w2 : World)
    s1 sc1 s2 sc2 :
  start_new_spark_session master_ip app_name log_dir cores memory partitions w
  = (Ok (s1, sc1), w1) ->
  start_new_spark_session master_ip' app_name' log_dir' cores' memory' partitions' w1
  = (Ok (s2, sc2), w2) ->
  Spark.cid s2 <> Spark.cid s1 /\
  sc2 = s2 /\
  Spark.conf s2
  = session_options master_ip' app_name' (Path log_dir') cores' memory' partitions' /\
  Spark.active (spark w2) = Some s2.
Proof.
  intros Hrun1 Hrun2.
  rewrite (session_returns _ _ _ _ _ _ _ _ _ _ Hrun2).
  apply session_run in Hrun1. apply session_run in Hrun2.
  destruct Hrun1 as (_ & _ & Hact1 & _ & Hstarted1).
  destruct Hrun2 as (_ & Hconf2 & Hact2 & Hcid2 & _).
  rewrite Hact1, Hstarted1 in Hcid2.
  repeat split; try assumption. lia.
Qed.

(** The session cell of the notebook, run twice on a fresh kernel. *)
Lemma session_rerun_witness :
  Spark.cid {| Spark.cid := 2;
               Spark.conf := session_options "local[*]" "bigslice" (Path "../logs")
                               2 "2g" 5 |}
  <> Spark.cid {| Spark.cid := 1;
                  Spark.conf := session_options "local[*]" "bigslice" (Path "../logs")
                                  2 "2g" 5 |} /\
  {| Spark.cid := 2;
     Spark.conf := session_options "local[*]" "bigslice" (Path "../logs") 2 "2g" 5 |}
  = {| Spark.cid := 2;
       Spark.conf := session_options "local[*]" "bigslice" (Path "../logs") 2 "2g" 5 |} /\
  Spark.conf {| Spark.cid := 2;
                Spark.conf := session_options "local[*]" "bigslice" (Path "../logs")
                                2 "2g" 5 |}
  = session_options "local[*]" "bigslice" (Path "../logs") 2 "2g" 5 /\
  Spark.active
    (spark (snd (cell_a8f9e073 (snd (cell_a8f9e073 (Sample.kernel Sample.tree false))))))
  = Some {| Spark.cid := 2;
            Spark.conf := session_options "local[*]" "bigslice" (Path "../logs")
                            2 "2g" 5 |}.
Proof.
  apply (session_rerun "local[*]" "bigslice" "../logs" 2 "2g" 5
           "local[*]" "bigslice" "../logs" 2 "2g" 5
           (Sample.kernel Sample.tree false)
           (snd (cell_a8f9e073 (Sample.kernel Sample.tree false)))
           (snd (cell_a8f9e073 (snd (cell_a8f9e073 (Sample.kernel Sample.tree false)))))
           {| Spark.cid := 1;
              Spark.conf := session_options "local[*]" "bigslice" (Path "../logs") 2 "2g" 5 |}
           {| Spark.cid := 1;
              Spark.conf := session_options "local[*]" "bigslice" (Path "../logs") 2 "2g" 5 |}
           {| Spark.cid := 2;
              Spark.conf := session_options "local[*]" "bigslice" (Path "../logs") 2 "2g" 5 |}
           {| Spark.cid := 2;
              Spark.conf := session_options "local[*]" "bigslice" (Path "../logs") 2 "2g" 5 |}).
  - vm_compute. reflexivity.
  - vm_compute. reflexivity.
Defined.

(** X3: what keeps [start_new_spark_session] from building a session. When
    something on the way to the log directory (a direct path, within the
    limits of the system), or at it, is not a directory, the call raises
    the error of [mkdir], [FileExistsError] or [NotADirectoryError], after
    it has stopped the context of the process: no context is active
    afterwards. *)
Theorem session_log_dir_blocked master_ip app_name log_dir cores memory partitions
    (w : World) (q : path) (x : node) :
  direct (Path log_dir) = true -> within_limits 0 (Path log_dir) = true ->
  is_prefix q (Path log_dir) = true -> trail q <> [] ->
  stat q (fs w) = Some x -> is_dir x = false ->
  exists e w',
    start_new_spark_session master_ip app_name log_dir cores memory partitions w
    = (Err e, w') /\
    (e = FileExistsError \/ e = NotADirectoryError) /\
    Spark.active (spark w') = None.
Proof.
  intros _ _ Hq _ Hs Hx.
  pose proof (session_by_mkdir master_ip app_name log_dir cores memory partitions w) as Hrun.
  pose proof (mkdir_p_possible (Path log_dir) (fs w)) as Hposs.
  destruct (mkdir_p (Path log_dir) (fs w)) as [made|e] eqn:Hmk.
  - exfalso. assert (Hx' : is_dir x = true) by (eapply Hposs; eauto). congruence.
  - destruct Hrun as (w' & Hrun & Hact). exists e, w'.
    split; [exact Hrun|]. split; [eapply mkdir_p_errors; exact Hmk|exact Hact].
Qed.

(** The session cell of the notebook where [../logs] is a file. *)
Lemma session_log_dir_blocked_witness :
  exists e w',
    start_new_spark_session "local[*]" "bigslice" "../logs" 2 "2g" 5
      (Sample.kernel (Dir {[ ".." := Dir {[ "logs" := File "a file" ]} ]}) false)
    = (Err e, w') /\
    (e = FileExistsError \/ e = NotADirectoryError) /\
    Spark.active (spark w') = None.
Proof.
  apply (session_log_dir_blocked "local[*]" "bigslice" "../logs" 2 "2g" 5
           (Sample.kernel (Dir {[ ".." := Dir {[ "logs" := File "a file" ]} ]}) false)
           (Path "../logs") (File "a file")).
  - vm_compute. reflexivity.
  - vm_compute. reflexivity.
  - vm_compute. reflexivity.
  - vm_compute. discriminate.
  - vm_compute. reflexivity.
  - reflexivity.
Defined.

(** ** More on the dataset-list cell *)

(** X4: on a kernel that does not know [genbank_table] (a fresh kernel run
    from the top: the name is bound two cells further down) the dataset-list
    cell raises [NameError] right after the glob, whatever the file system
    holds, and writes nothing; the notebook run in its order stops there,
    before any call to Axolotl. *)
Theorem manifest_cell_fresh_kernel (ax : Axolotl) (w : World) :
  globals w !! "genbank_table" = None ->
  fst (cell_fa8c0646 w) = Err (NameError "genbank_table") /\
  fs (snd (cell_fa8c0646 w)) = fs w /\
  map what (since w (snd (cell_fa8c0646 w)))
  = [Glob (Path Literals.dataset_path) Literals.pattern; Name "genbank_table"] /\
  notebook_staging ax w = (Err (NameError "genbank_table"), snd (cell_fa8c0646 w)).
Proof.
  intros Hgt.
  destruct (glob_literal_ok (Path Literals.dataset_path) (fs w)) as [ds Hds].
  unfold notebook_staging, bind, cell_fa8c0646, write_dataset_list, bind, assign, reads,
    name, reads, updates, writes, logged, since.
  world_simpl. rewrite Hds. world_simpl.
  rewrite lookup_insert_ne by discriminate. rewrite Hgt. world_simpl.
  rewrite <- ?app_assoc, drop_app_length. repeat split.
Qed.

Lemma manifest_cell_fresh_kernel_witness :
  fst (cell_fa8c0646 (Sample.kernel Sample.tree false)) = Err (NameError "genbank_table") /\
  fs (snd (cell_fa8c0646 (Sample.kernel Sample.tree false))) = Sample.tree /\
  map what (since (Sample.kernel Sample.tree false)
              (snd (cell_fa8c0646 (Sample.kernel Sample.tree false))))
  = [Glob (Path Literals.dataset_path) Literals.pattern; Name "genbank_table"] /\
  notebook_staging Sample.ax (Sample.kernel Sample.tree false)
  = (Err (NameError "genbank_table"), snd (cell_fa8c0646 (Sample.kernel Sample.tree false))).
Proof.
  apply (manifest_cell_fresh_kernel Sample.ax (Sample.kernel Sample.tree false)).
  reflexivity.
Defined.

(** X5: what keeps the dataset-list cell from writing. With
    [genbank_table] bound to a direct path within the limits of the system,
    the cell raises, and leaves the file system as it was, when the
    manifest path names a directory ([IsADirectoryError], from [open]) and
    when something on the way to the directory of the manifest is not a
    directory ([FileExistsError] or [NotADirectoryError], from [mkdir]). *)
Theorem manifest_cell_blocked (w : World) g :
  globals w !! "genbank_table" = Some g ->
  direct (Path g) = true -> within_limits 0 (Path g) = true ->
  path_is_dir (Path g) (fs w) = true \/
  (exists q x, is_prefix q (parent (Path g)) = true /\ trail q <> [] /\
               stat q (fs w) = Some x /\ is_dir x = false) ->
  exists e,
    fst (cell_fa8c0646 w) = Err e /\
    (e = IsADirectoryError \/ e = FileExistsError \/ e = NotADirectoryError) /\
    (path_is_dir (Path g) (fs w) = true -> e = IsADirectoryError) /\
    fs (snd (cell_fa8c0646 w)) = fs w.
Proof.
  intros Hg _ _ Hblocked. destruct (cell_run w g Hg) as (ds & _ & Hrun).
  pose proof (mkdir_p_possible (parent (Path g)) (fs w)) as Hposs.
  assert (Hdir : path_is_dir (Path g) (fs w) = true ->
                 mkdir_p (parent (Path g)) (fs w) = Ok (fs w)).
  { intros Hd. apply mkdir_p_existing, parent_dir_of_dir, Hd. }
  destruct Hblocked as [Hd|(q & x & Hq & _ & Hs & Hx)].
  - rewrite (Hdir Hd) in Hrun.
    rewrite (write_text_on_dir _ (manifest_text ds) _ Hd) in Hrun.
    destruct Hrun as [Hr Hfs]. exists IsADirectoryError. auto.
  - destruct (mkdir_p (parent (Path g)) (fs w)) as [made|e] eqn:Hmk.
    + exfalso. assert (Hx' : is_dir x = true) by (eapply Hposs; eauto). congruence.
    + destruct Hrun as [Hr Hfs]. exists e. split; [exact Hr|].
      split; [apply mkdir_p_errors in Hmk; tauto|]. split; [|exact Hfs].
      intros Hd. specialize (Hdir Hd). discriminate Hdir.
Qed.

(** The cell of the notebook where [../data/datasets.txt] is a directory. *)
Lemma manifest_cell_blocked_witness :
  exists e,
    fst (cell_fa8c0646
           (Sample.kernel
              (Dir {[ ".." := Dir {[ "data" := Dir {[ "datasets.txt" := Dir ∅ ]} ]} ]})
              true)) = Err e /\
    (e = IsADirectoryError \/ e = FileExistsError \/ e = NotADirectoryError) /\
    (path_is_dir (Path Literals.genbank_table)
       (fs (Sample.kernel
              (Dir {[ ".." := Dir {[ "data" := Dir {[ "datasets.txt" := Dir ∅ ]} ]} ]})
              true)) = true -> e = IsADirectoryError) /\
    fs (snd (cell_fa8c0646
               (Sample.kernel
                  (Dir {[ ".." := Dir {[ "data" := Dir {[ "datasets.txt" := Dir ∅ ]} ]} ]})
                  true)))
    = fs (Sample.kernel
            (Dir {[ ".." := Dir {[ "data" := Dir {[ "datasets.txt" := Dir ∅ ]} ]} ]})
            true).
Proof.
  apply (manifest_cell_blocked
           (Sample.kernel
              (Dir {[ ".." := Dir {[ "data" := Dir {[ "datasets.txt" := Dir ∅ ]} ]} ]})
              true)
           Literals.genbank_table).
  - reflexivity.
  - vm_compute. reflexivity.
  - vm_compute. reflexivity.
  - left. vm_compute. reflexivity.
Defined.

(** X6: the dataset-list cell touches the manifest and the directories on
    the way to it, and nothing else: a path of the same base as the manifest
    path (both direct) that is neither the manifest path nor above it names
    after the cell what it named before, whether the cell succeeded or
    raised. *)
Theorem manifest_cell_frame (w : World) (q : path) :
  direct q = true ->
  (forall g, globals w !! "genbank_table" = Some g ->
             direct (Path g) = true /\ same_base (Path g) q = true /\
             is_prefix q (Path g) = false) ->
  stat q (fs (snd (cell_fa8c0646 w))) = stat q (fs w).
Proof.
  intros _ Hq. destruct (globals w !! "genbank_table") as [gt|] eqn:Hgt.
  - apply cell_frame with (gt := gt); [exact Hgt|]. apply Hq. reflexivity.
  - rewrite (unbound_name_writes_nothing w Hgt). reflexivity.
Qed.

(** The directory [../data/interim] of the sample, where the table and the
    workspace go, is as it was after the cell. *)
Lemma manifest_cell_frame_witness :
  stat (Path "../data/interim")
       (fs (snd (cell_fa8c0646 (Sample.kernel Sample.blocked_tree true))))
  = stat (Path "../data/interim") (fs (Sample.kernel Sample.blocked_tree true)).
Proof.
  apply (manifest_cell_frame (Sample.kernel Sample.blocked_tree true) (Path "../data/interim")).
  - vm_compute. reflexivity.
  - intros g Hg. vm_compute in Hg. injection Hg as <-. vm_compute. auto.
Defined.

(** X7: when the dataset-list cell has succeeded, with the manifest at a
    direct path of the same base as the dataset directory and not in it,
    running the cell again succeeds and changes nothing: the same paths are
    found and the same text is written to the same file. *)
Theorem manifest_cell_rerun (w : World) g :
  globals w !! "genbank_table" = Some g ->
  direct (Path g) = true ->
  same_base (Path Literals.dataset_path) (Path g) = true ->
  is_prefix (Path Literals.dataset_path) (Path g) = false ->
  fst (cell_fa8c0646 w) = Ok tt ->
  fst (cell_fa8c0646 (snd (cell_fa8c0646 w))) = Ok tt /\
  fs (snd (cell_fa8c0646 (snd (cell_fa8c0646 w)))) = fs (snd (cell_fa8c0646 w)).
Proof.
  intros Hgt _ _ Hout Hok.
  assert (Hroot : stat (Path Literals.dataset_path) (fs (snd (cell_fa8c0646 w)))
                  = stat (Path Literals.dataset_path) (fs w)).
  { apply cell_frame with (gt := g); assumption. }
  destruct (cell_run w g Hgt) as (ds & Hds & Hrun).
  assert (Hgt1 : globals (snd (cell_fa8c0646 w)) !! "genbank_table" = Some g).
  { unfold cell_fa8c0646. rewrite cell_globals.
    rewrite lookup_insert_ne by discriminate. exact Hgt. }
  destruct (cell_run _ g Hgt1) as (ds1 & Hds1 & Hrun1).
  rewrite (glob_same_input _ _ _ _ Hroot), Hds in Hds1. injection Hds1 as <-.
  destruct (mkdir_p (parent (Path g)) (fs w)) as [made|e] eqn:Hmk;
    [|destruct Hrun as [Hr _]; congruence].
  destruct (write_text (Path g) (manifest_text ds) made) as [written|e] eqn:Hwr;
    [|destruct Hrun as [Hr _]; congruence].
  destruct Hrun as [_ Hfs]. rewrite Hfs in *.
  assert (Hpd : path_is_dir (parent (Path g)) written = true).
  { eapply write_text_keeps_dir; [exact Hwr|]. eapply mkdir_p_is_dir. exact Hmk. }
  rewrite (mkdir_p_existing _ _ Hpd) in Hrun1.
  rewrite (write_text_same _ _ _ (write_text_stat _ _ _ _ Hwr)) in Hrun1.
  exact Hrun1.
Qed.

(** The cell on the sample, in a kernel that puts the manifest at
    [/work/data/datasets.txt]. *)
Lemma manifest_cell_rerun_witness :
  fst (cell_fa8c0646 (snd (cell_fa8c0646 (Sample.rooted_kernel Sample.tree)))) = Ok tt /\
  fs (snd (cell_fa8c0646 (snd (cell_fa8c0646 (Sample.rooted_kernel Sample.tree)))))
  = fs (snd (cell_fa8c0646 (Sample.rooted_kernel Sample.tree))).
Proof.
  apply (manifest_cell_rerun (Sample.rooted_kernel Sample.tree) Sample.rooted_genbank_table).
  all: vm_compute; reflexivity.
Defined.

(** X9: the manifest reads back as the list the glob found. When the cell
    has succeeded and no name on the paths found holds a newline, the lines
    of the manifest, each parsed as a path, are the paths found, in the
    order of discovery. *)
Theorem manifest_reads_back (w : World) gt (ds : list path) :
  globals w !! "genbank_table" = Some gt ->
  glob (Path Literals.dataset_path) Literals.pattern (fs w) = Ok ds ->
  fst (cell_fa8c0646 w) = Ok tt ->
  forallb (fun d => forallb plain (names d)) ds = true ->
  exists text,
    stat (Path gt) (fs (snd (cell_fa8c0646 w))) = Some (File text) /\
    map Path (Text.lines text) = ds.
Proof.
  intros Hgt Hds Hok Hplain.
  destruct (cell_run w gt Hgt) as (ds' & Hds' & Hrun).
  rewrite Hds in Hds'. injection Hds' as <-.
  destruct (mkdir_p (parent (Path gt)) (fs w)) as [made|e] eqn:Hmk;
    [|destruct Hrun as [Hr _]; congruence].
  destruct (write_text (Path gt) (manifest_text ds) made) as [written|e] eqn:Hwr;
    [|destruct Hrun as [Hr _]; congruence].
  destruct Hrun as [_ ->]. exists (manifest_text ds). split.
  - eapply write_text_stat. exact Hwr.
  - destruct (manifest_paths ds Hplain) as [-> ->]. reflexivity.
Qed.

Lemma manifest_reads_back_witness :
  exists text,
    stat (Path Literals.genbank_table)
         (fs (snd (cell_fa8c0646 (Sample.kernel Sample.tree true)))) = Some (File text) /\
    map Path (Text.lines text)
    = [ Path Literals.dataset_path ++ ["g1"; "antismash"; "c1.region001.gbk"];
        Path Literals.dataset_path ++ ["g1"; "antismash"; "c1.region002.gbk"];
        Path Literals.dataset_path ++ ["g2"; "antismash"; "c7.region001.gbk"] ].
Proof.
  apply (manifest_reads_back (Sample.kernel Sample.tree true) Literals.genbank_table).
  - reflexivity.
  - vm_compute. reflexivity.
  - vm_compute. reflexivity.
  - vm_compute. reflexivity.
Defined.

(** ** What the pattern of the notebook matches *)

Module PatternFacts.

Local Arguments Ascii.eqb : simpl never.

Lemma fnmatch_star_unfold pat name :
  fnmatch (String "*" pat) name
  = fnmatch pat name
    || match name with
       | EmptyString => false
       | String _ name' => fnmatch (String "*" pat) name'
       end.
Proof. destruct name; reflexivity. Qed.

(** [*] stands for any run of characters, the empty one included. *)
Lemma fnmatch_star pat name :
  fnmatch (String "*" pat) name = true <->
  exists a b, name = a +:+ b /\ fnmatch pat b = true.
Proof.
  induction name as [|c name IH]; rewrite fnmatch_star_unfold.
  - rewrite orb_false_r. split.
    + intros H. exists "", "". split; [reflexivity|exact H].
    + intros (a & b & E & H). destruct a; [|discriminate E].
      rewrite app_nil_l in E. subst b. exact H.
  - rewrite orb_true_iff, IH. split.
    + intros [H|(a & b & E & H)].
      * exists "", (String c name). split; [reflexivity|exact H].
      * exists (String c a), b. split; [rewrite app_cons; congruence|exact H].
    + intros (a & b & E & H). destruct a as [|d a].
      * rewrite app_nil_l in E. subst b. left. exact H.
      * rewrite app_cons in E. injection E as <- E. right. eauto.
Qed.

(** A run of characters without wildcard stands for itself. *)
Lemma fnmatch_prefix lit pat name :
  is_wild lit = false ->
  (fnmatch (lit +:+ pat) name = true <->
   exists name', name = lit +:+ name' /\ fnmatch pat name' = true).
Proof.
  unfold is_wild. revert name. induction lit as [|c lit IH]; intros name H.
  - rewrite app_nil_l. split.
    + intros E. exists name. rewrite app_nil_l. auto.
    + intros (name' & E & E'). rewrite app_nil_l in E. subst. exact E'.
  - simpl in H. apply orb_false_iff in H as [H1 H2].
    apply orb_false_iff in H1 as [Ha1 Hs1]. apply orb_false_iff in H2 as [Ha2 Hs2].
    rewrite app_cons. simpl.
    rewrite (Ascii.eqb_sym c "*"), Ha1, (Ascii.eqb_sym c "?"), Ha2.
    destruct name as [|d name].
    + split; [discriminate|]. intros (name' & E & _). rewrite app_cons in E. discriminate E.
    + simpl. rewrite andb_true_iff, Ascii.eqb_eq, IH by (rewrite Hs1, Hs2; reflexivity).
      split.
      * intros [-> (name' & -> & E)]. exists name'. rewrite app_cons. auto.
      * intros (name' & E & E'). rewrite app_cons in E. injection E as <- ->. eauto.
Qed.

(** The names [*region*.gbk] matches: those that hold [region] and, after
    it, end in [.gbk]. *)
Lemma fnmatch_region name :
  fnmatch "*region*.gbk" name = true <->
  exists a b, name = a +:+ "region" +:+ b +:+ ".gbk".
Proof.
  rewrite fnmatch_star. split.
  - intros (a & r & -> & H).
    apply (fnmatch_prefix "region" "*.gbk") in H as (r' & -> & H); [|reflexivity].
    apply fnmatch_star in H as (b & e & -> & H).
    apply fnmatch_literal in H; [|reflexivity]. subst e. eauto.
  - intros (a & b & ->). exists a, ("region" +:+ b +:+ ".gbk"). split; [reflexivity|].
    apply (fnmatch_prefix "region" "*.gbk"); [reflexivity|].
    exists (b +:+ ".gbk"). split; [reflexivity|].
    apply fnmatch_star. exists b, ".gbk". split; [reflexivity|].
    apply fnmatch_literal; reflexivity.
Qed.

Lemma fnmatch_any name : fnmatch "*" name = true.
Proof.
  apply fnmatch_star. exists name, "". rewrite app_nil_r. split; reflexivity.
Qed.


End PatternFacts.

Import PatternFacts.

(** X8: what the glob of the dataset-list cell finds, whatever the file
    system holds: exactly the entries that exist three levels below the
    dataset directory, in a directory named [antismash] of any directory of
    the dataset directory, under a name that holds [region] and, after it,
    ends in [.gbk]. (An entry found can be a directory: the glob does not
    ask for a file.) *)
Theorem notebook_glob_shape (n : node) (ds : list path) (p : path) :
  glob (Path Literals.dataset_path) Literals.pattern n = Ok ds ->
  (p ∈ ds <->
   path_is_dir (Path Literals.dataset_path) n = true /\
   path_exists p n = true /\
   exists genome a b,
     p = Path Literals.dataset_path
         ++ [genome; "antismash"; a +:+ "region" +:+ b +:+ ".gbk"]).
Proof.
  intros Hglob. rewrite (glob_spec _ _ _ _ p Hglob). unfold matches.
  rewrite CellFacts.pattern_parts.
  split.
  - intros (Hd & rel & -> & Hm & He). repeat split; [exact Hd|exact He|].
    inversion Hm as [|s1 g l1 r1 _ Hm1]; subst.
    inversion Hm1 as [|s2 x l2 r2 Hx Hm2]; subst.
    inversion Hm2 as [|s3 f l3 r3 Hf Hm3]; subst.
    inversion Hm3; subst.
    apply fnmatch_literal in Hx; [|reflexivity]. subst x.
    apply fnmatch_region in Hf as (a & b & ->). eauto.
  - intros (Hd & He & g & a & b & ->). split; [exact Hd|].
    eexists. split; [reflexivity|]. split; [|exact He].
    repeat constructor.
    + apply fnmatch_any.
    + apply fnmatch_region. eauto.
Qed.

(** The glob of the cell on the sample finds [c7.region001.gbk] of genome
    [g2]. *)
Lemma notebook_glob_shape_witness :
  Path Literals.dataset_path ++ ["g2"; "antismash"; "c7.region001.gbk"]
  ∈ [ Path Literals.dataset_path ++ ["g1"; "antismash"; "c1.region001.gbk"];
      Path Literals.dataset_path ++ ["g1"; "antismash"; "c1.region002.gbk"];
      Path Literals.dataset_path ++ ["g2"; "antismash"; "c7.region001.gbk"] ] <->
  path_is_dir (Path Literals.dataset_path) Sample.tree = true /\
  path_exists (Path Literals.dataset_path ++ ["g2"; "antismash"; "c7.region001.gbk"])
              Sample.tree = true /\
  exists genome a b,
    Path Literals.dataset_path ++ ["g2"; "antismash"; "c7.region001.gbk"]
    = Path Literals.dataset_path
      ++ [genome; "antismash"; a +:+ "region" +:+ b +:+ ".gbk"].
Proof.
  apply (notebook_glob_shape Sample.tree).
  vm_compute. reflexivity.
Defined.

(** ** The lines of the manifest *)



(** ** More on the cell that loads the data *)

Module LoadCellFacts.

(** [gbk_to_bigslice_app] binds no name of the kernel. *)
Lemma gbk_globals (ax : Axolotl) gt bd ad (w : World) :
  globals (snd (gbk_to_bigslice_app ax gt bd ad w)) = globals w.
Proof. gbk_run; reflexivity. Qed.

(** The cell binds its three names before anything else, however it ends. *)
Lemma load_into_app_globals (ax : Axolotl) gt bd ad (w : World) :
  globals (snd (load_into_app ax gt bd ad w))
  = <["annotations_dir" := ad]>
      (<["bigslice_app_dir" := bd]> (<["genbank_table" := gt]> (globals w))).
Proof.
  unfold load_into_app, bind at 1 2 3 4, assign, getenv_path, reads, logged. world_simpl.
  destruct (environ w !! "CONDA_PREFIX") as [v|]; world_simpl; [|reflexivity].
  rewrite gbk_globals. reflexivity.
Qed.

End LoadCellFacts.

Import LoadCellFacts.

(** X11: cell 04d4a557 binds [genbank_table], [bigslice_app_dir] and
    [annotations_dir] before it does anything else, so they are bound
    however the cell ends, also when it raises; the dataset-list cell run
    after it therefore does not raise [NameError], and writes the manifest
    where cell 04d4a557 said, at [../data/datasets.txt]. *)
Theorem load_cell_binds_names (ax : Axolotl) (w : World) :
  globals (snd (cell_04d4a557 ax w)) !! "genbank_table" = Some Literals.genbank_table /\
  globals (snd (cell_04d4a557 ax w)) !! "bigslice_app_dir" = Some Literals.bigslice_app_dir /\
  globals (snd (cell_04d4a557 ax w)) !! "annotations_dir" = Some Literals.annotations_dir /\
  fst (cell_fa8c0646 (snd (cell_04d4a557 ax w))) <> Err (NameError "genbank_table") /\
  Forall (fun e => match what e with
                   | Mkdir p => p = parent (Path Literals.genbank_table)
                   | OpenW p => p = Path Literals.genbank_table
                   | _ => True
                   end)
         (since (snd (cell_04d4a557 ax w))
                (snd (cell_fa8c0646 (snd (cell_04d4a557 ax w))))).
Proof.
  assert (Hgt : globals (snd (cell_04d4a557 ax w)) !! "genbank_table"
                = Some Literals.genbank_table).
  { unfold cell_04d4a557. rewrite load_into_app_globals.
    rewrite !lookup_insert_ne by discriminate. apply lookup_insert_eq. }
  split; [exact Hgt|].
  split.
  { unfold cell_04d4a557. rewrite load_into_app_globals.
    rewrite lookup_insert_ne by discriminate. apply lookup_insert_eq. }
  split.
  { unfold cell_04d4a557. rewrite load_into_app_globals. apply lookup_insert_eq. }
  split.
  - destruct (cell_run _ _ Hgt) as (ds & _ & Hrun).
    destruct (mkdir_p (parent (Path Literals.genbank_table)) (fs (snd (cell_04d4a557 ax w))))
      as [made|e] eqn:Hmk.
    + destruct (write_text (Path Literals.genbank_table) (manifest_text ds) made)
        as [written|e] eqn:Hwr; destruct Hrun as [-> _]; [discriminate|].
      apply write_text_errors in Hwr. intros E. injection E as ->.
      destruct Hwr as [Hw|[Hw|Hw]]; discriminate Hw.
    + destruct Hrun as [-> _]. apply mkdir_p_errors in Hmk.
      intros E. injection E as ->. destruct Hmk as [Hm|Hm]; discriminate Hm.
  - pose proof (write_dataset_list_calls Literals.dataset_path Literals.pattern
                  (snd (cell_04d4a557 ax w))) as Hcalls.
    rewrite Hgt in Hcalls. unfold cell_fa8c0646.
    eapply Forall_impl; [exact Hcalls|].
    intros e He. cbv beta in He. unfold manifest_call in He.
    destruct (what e); try exact I.
    + destruct He as (g & Hg & ->). injection Hg as <-. reflexivity.
    + destruct He as (g & Hg & ->). injection Hg as <-. reflexivity.
Qed.

(** X12: without [CONDA_PREFIX] in the environment, cell 04d4a557 raises
    [TypeError] ([Path(None)]) on the line before the call of
    [gbk_to_bigslice_app]: no call to Axolotl is made and the file system
    is as it was. *)
Theorem load_cell_without_conda_prefix (ax : Axolotl) (w : World) :
  environ w !! "CONDA_PREFIX" = None ->
  fst (cell_04d4a557 ax w) = Err TypeError /\
  fs (snd (cell_04d4a557 ax w)) = fs w /\
  map what (since w (snd (cell_04d4a557 ax w))) = [Getenv "CONDA_PREFIX"].
Proof.
  intros Henv.
  unfold cell_04d4a557, load_into_app, bind, assign, getenv_path, reads, logged, since.
  world_simpl. rewrite Henv. world_simpl. rewrite drop_app_length. repeat split.
Qed.

Lemma load_cell_without_conda_prefix_witness :
  fst (cell_04d4a557 Sample.ax
         {| fs := Sample.tree; globals := ∅; environ := ∅;
            spark := {| Spark.active := None; Spark.started := 0 |}; trace := [] |})
  = Err TypeError /\
  fs (snd (cell_04d4a557 Sample.ax
         {| fs := Sample.tree; globals := ∅; environ := ∅;
            spark := {| Spark.active := None; Spark.started := 0 |}; trace := [] |}))
  = Sample.tree /\
  map what
    (since {| fs := Sample.tree; globals := ∅; environ := ∅;
              spark := {| Spark.active := None; Spark.started := 0 |}; trace := [] |}
       (snd (cell_04d4a557 Sample.ax
         {| fs := Sample.tree; globals := ∅; environ := ∅;
            spark := {| Spark.active := None; Spark.started := 0 |}; trace := [] |})))
  = [Getenv "CONDA_PREFIX"].
Proof.
  apply (load_cell_without_conda_prefix Sample.ax
           {| fs := Sample.tree; globals := ∅; environ := ∅;
              spark := {| Spark.active := None; Spark.started := 0 |}; trace := [] |}).
  reflexivity.
Defined.

Module GbkFacts.

(** A run of [gbk_to_bigslice_app] depends on the file system only: not on
    the names of the kernel, the environment or the calls made before. *)
Lemma gbk_same_fs (ax : Axolotl) gt bd ad (w w' : World) :
  fs w' = fs w ->
  fst (gbk_to_bigslice_app ax gt bd ad w') = fst (gbk_to_bigslice_app ax gt bd ad w) /\
  fs (snd (gbk_to_bigslice_app ax gt bd ad w')) = fs (snd (gbk_to_bigslice_app ax gt bd ad w)) /\
  since w' (snd (gbk_to_bigslice_app ax gt bd ad w'))
  = since w (snd (gbk_to_bigslice_app ax gt bd ad w)).
Proof.
  intros Hfs.
  unfold gbk_to_bigslice_app, bind, reads, writes, ret, logged, since.
  rewrite Hfs. repeat next_call; world_simpl;
    rewrite <- ?app_assoc, ?drop_app_length; repeat split.
Qed.

(** A run only adds to the log of calls. *)
Lemma gbk_trace (ax : Axolotl) gt bd ad (w : World) :
  exists rest, trace (snd (gbk_to_bigslice_app ax gt bd ad w)) = trace w ++ rest.
Proof.
  unfold gbk_to_bigslice_app, bind, reads, writes, ret, logged.
  repeat next_call; world_simpl; rewrite <- ?app_assoc;
    first [eexists; reflexivity | exists []; rewrite app_nil_r; reflexivity].
Qed.

End GbkFacts.

Import GbkFacts.

(** X13: with [CONDA_PREFIX] set, to whatever value, cell 04d4a557 does
    what [gbk_to_bigslice_app] does with the three paths of the cell: the
    same result, the same file system, the same calls after the look-up of
    the variable. The path [bigslice_db_path] made of the variable reaches
    no call. *)
Theorem conda_prefix_value_unused (ax : Axolotl) (w : World) v :
  environ w !! "CONDA_PREFIX" = Some v ->
  fst (cell_04d4a557 ax w)
  = fst (gbk_to_bigslice_app ax Literals.genbank_table Literals.bigslice_app_dir
           Literals.annotations_dir w) /\
  fs (snd (cell_04d4a557 ax w))
  = fs (snd (gbk_to_bigslice_app ax Literals.genbank_table Literals.bigslice_app_dir
              Literals.annotations_dir w)) /\
  map what (since w (snd (cell_04d4a557 ax w)))
  = Getenv "CONDA_PREFIX"
    :: map what (since w (snd (gbk_to_bigslice_app ax Literals.genbank_table
                                 Literals.bigslice_app_dir Literals.annotations_dir w))).
Proof.
  intros Henv.
  unfold cell_04d4a557, load_into_app, bind, assign, getenv_path, reads, logged.
  world_simpl. rewrite Henv. world_simpl.
  match goal with
  | |- context [gbk_to_bigslice_app ax ?a ?b ?c ?w0] =>
      lazymatch w0 with
      | w => fail
      | _ => set (w1 := w0)
      end
  end.
  destruct (gbk_same_fs ax Literals.genbank_table Literals.bigslice_app_dir
              Literals.annotations_dir w w1 eq_refl) as (Hr & Hf & Hs).
  split; [exact Hr|]. split; [exact Hf|].
  rewrite <- Hs. unfold since.
  assert (Htr : exists rest, trace (snd (gbk_to_bigslice_app ax Literals.genbank_table
                  Literals.bigslice_app_dir Literals.annotations_dir w1))
                = trace w1 ++ rest).
  { apply gbk_trace. }
  destruct Htr as [rest ->].
  rewrite drop_app_length. subst w1. world_simpl.
  rewrite <- app_assoc, drop_app_length. reflexivity.
Qed.

Lemma conda_prefix_value_unused_witness :
  fst (cell_04d4a557 Sample.ax (Sample.kernel Sample.tree true))
  = fst (gbk_to_bigslice_app Sample.ax Literals.genbank_table Literals.bigslice_app_dir
           Literals.annotations_dir (Sample.kernel Sample.tree true)) /\
  fs (snd (cell_04d4a557 Sample.ax (Sample.kernel Sample.tree true)))
  = fs (snd (gbk_to_bigslice_app Sample.ax Literals.genbank_table Literals.bigslice_app_dir
              Literals.annotations_dir (Sample.kernel Sample.tree true))) /\
  map what (since (Sample.kernel Sample.tree true)
              (snd (cell_04d4a557 Sample.ax (Sample.kernel Sample.tree true))))
  = Getenv "CONDA_PREFIX"
    :: map what (since (Sample.kernel Sample.tree true)
                   (snd (gbk_to_bigslice_app Sample.ax Literals.genbank_table
                           Literals.bigslice_app_dir Literals.annotations_dir
                           (Sample.kernel Sample.tree true)))).
Proof.
  apply (conda_prefix_value_unused Sample.ax (Sample.kernel Sample.tree true) "/opt/conda").
  reflexivity.
Defined.

(** ** More on [gbk_to_bigslice_app] *)

(** X14: with the workspace at a settled path, [gbk_to_bigslice_app] calls
    [shutil.rmtree] on the workspace path only, and only after [exists()]
    answered yes on the file system the removal starts from: the removal
    never raises [FileNotFoundError]. When the workspace path names
    something that is not a directory, the removal raises
    [NotADirectoryError] and removes nothing. In every case the removal
    leaves alone what a direct path of the same base names that is neither
    at, below nor above the workspace path. *)
Theorem workspace_removal (ax : Axolotl) gt bd ad (w : World) :
  settled (Path bd) = true ->
  Forall (fun e =>
            match what e with
            | Rmtree p =>
                Path p = Path bd /\
                path_exists (Path bd) (before e) = true /\
                raised e <> Some FileNotFoundError /\
                (path_is_dir (Path bd) (before e) = false ->
                 raised e = Some NotADirectoryError /\ after e = before e) /\
                (forall q, direct q = true -> same_base (Path bd) q = true ->
                           apart (Path bd) q = true ->
                           stat q (after e) = stat q (before e))
            | _ => True
            end)
         (since w (snd (gbk_to_bigslice_app ax gt bd ad w))).
Proof.
  intros _.
  assert (Hrm : forall n r n',
             path_exists (Path bd) n = true ->
             rmtree (Path (str (Path bd))) n = (r, n') ->
             Path (str (Path bd)) = Path bd /\
             path_exists (Path bd) n = true /\
             r <> Some FileNotFoundError /\
             (path_is_dir (Path bd) n = false -> r = Some NotADirectoryError /\ n' = n) /\
             (forall q, direct q = true -> same_base (Path bd) q = true ->
                        apart (Path bd) q = true -> stat q n' = stat q n)).
  { intros n r n' He Hr. rewrite PathFacts.Path_str_Path in *.
    split; [reflexivity|]. split; [exact He|]. split; [|split].
    - unfold rmtree in Hr. unfold path_exists in He.
      destruct (stat (Path bd) n) as [[| |es]|]; [| | |discriminate He].
      + injection Hr as <- _. discriminate.
      + injection Hr as <- _. discriminate.
      + destruct (Path bd); injection Hr as <- _; discriminate.
    - unfold rmtree in Hr. unfold path_is_dir. unfold path_exists in He.
      destruct (stat (Path bd) n) as [[| |es]|]; [| | |discriminate He].
      + intros _. injection Hr as <- <-. auto.
      + intros _. injection Hr as <- <-. auto.
      + discriminate.
    - intros q _ _ Hq. pose proof (stat_rmtree_apart (Path bd) q n Hq) as H.
      rewrite Hr in H. exact H. }
  gbk_run; repeat constructor; world_simpl; eapply Hrm; eassumption.
Qed.

(** The call of the notebook on the sample, with a workspace to remove. *)
Lemma workspace_removal_witness :
  Forall (fun e =>
            match what e with
            | Rmtree p =>
                Path p = Path Literals.bigslice_app_dir /\
                path_exists (Path Literals.bigslice_app_dir) (before e) = true /\
                raised e <> Some FileNotFoundError /\
                (path_is_dir (Path Literals.bigslice_app_dir) (before e) = false ->
                 raised e = Some NotADirectoryError /\ after e = before e) /\
                (forall q, direct q = true ->
                           same_base (Path Literals.bigslice_app_dir) q = true ->
                           apart (Path Literals.bigslice_app_dir) q = true ->
                           stat q (after e) = stat q (before e))
            | _ => True
            end)
         (since (snd (cell_fa8c0646 (Sample.kernel Sample.blocked_tree true)))
            (snd (gbk_to_bigslice_app Sample.ax Literals.genbank_table
                    Literals.bigslice_app_dir Literals.annotations_dir
                    (snd (cell_fa8c0646 (Sample.kernel Sample.blocked_tree true)))))).
Proof.
  apply (workspace_removal Sample.ax Literals.genbank_table Literals.bigslice_app_dir
           Literals.annotations_dir
           (snd (cell_fa8c0646 (Sample.kernel Sample.blocked_tree true)))).
  vm_compute. reflexivity.
Defined.
